(** * The build script [build/build.py]: a shallow embedding

    The script resolves a build configuration from command-line flags,
    environment variables and platform defaults, and then drives [cmake]
    through a clean / generate / build / test sequence.

    Strings are [string] (sequences of 8-bit characters); [os.environ] is a
    finite map; everything the script reads from its host without changing it
    is gathered in the record [Host]; everything it changes (the three timing
    attributes of the runner, the working directory, the directories that
    exist, the number of timer readings, and the log of observable events)
    is the record [state].  Methods are computations in a state-and-exception
    monad [M] that keeps the state reached when an exception is raised. *)

From stdpp Require Import base strings gmap list.
From Stdlib Require Import ZArith Ascii String Lia.

Local Open Scope string_scope.
Local Open Scope list_scope.
Local Open Scope Z_scope.

(** ** Python string primitives *)

Module Py.

(** [str.lower] and [str.upper] on the ASCII letters. *)
Definition lower_char (c : ascii) : ascii :=
  let n := N_of_ascii c in
  if ((65 <=? n) && (n <=? 90))%N then ascii_of_N (n + 32) else c.

Definition upper_char (c : ascii) : ascii :=
  let n := N_of_ascii c in
  if ((97 <=? n) && (n <=? 122))%N then ascii_of_N (n - 32) else c.

Fixpoint map_chars (f : ascii -> ascii) (s : string) : string :=
  match s with
  | EmptyString => EmptyString
  | String c s' => String (f c) (map_chars f s')
  end.

Definition lower : string -> string := map_chars lower_char.
Definition upper : string -> string := map_chars upper_char.

(** [s.capitalize()]: first character upper-cased, the rest lower-cased. *)
Definition capitalize (s : string) : string :=
  match s with
  | EmptyString => EmptyString
  | String c s' => String (upper_char c) (lower s')
  end.

(** [s.startswith(p)]. *)
Definition startswith (s p : string) : bool := String.prefix p s.

(** [sep.join(l)]. *)
Fixpoint join (sep : string) (l : list string) : string :=
  match l with
  | [] => ""
  | [x] => x
  | x :: l' => x +:+ sep +:+ join sep l'
  end.

(** Truth value of a [str]: only the empty string is false. *)
Definition truthy (s : string) : bool :=
  match s with EmptyString => false | _ => true end.

(** Truth value of an optional [str]: [None] and [''] are false. *)
Definition truthy_opt (o : option string) : bool :=
  match o with Some s => truthy s | None => false end.

(** [then_ v if o else else_], for an optional [str] [o] whose value is [v]. *)
Definition if_truthy {A : Type} (o : option string) (then_ : string -> A)
    (else_ : A) : A :=
  match o with
  | Some v => if truthy v then then_ v else else_
  | None => else_
  end.

(** [str(b)] for a [bool], and [str(o)] for an optional [str]. *)
Definition str_bool (b : bool) : string := if b then "True" else "False".
Definition str_opt (o : option string) : string :=
  match o with Some s => s | None => "None" end.

(** [a == b] on strings. *)
Definition eqb (a b : string) : bool := String.eqb a b.

End Py.

(** ** Exceptions, events, host and state *)

Inductive exn : Type :=
| ValueError (msg : string)
| NotSupportedTargetPlatformError (msg : string)
| NotSupportedHostEnvironmentError (msg : string)
| NameError (msg : string)
| TypeError (msg : string)
| CalledProcessError (returncode : Z) (cmd : list string)
| OSError (cmd : list string).

(** The four phases of the orchestrator; [Call m] in the event log marks the
    entry of the method of that name. *)
Inductive method : Type := m_clean | m_generate | m_build | m_tests.

Inductive event : Type :=
| Call (m : method)
| Print (line : string)
| PrintTime (label : string) (t : Z)
| Warn (msg : string)
| Rmtree (path : string)
| Makedirs (path : string)
| Chdir (path : string)
| Spawn (cmd : list string) (quiet : bool).

#[global] Instance method_eq_dec : EqDecision method.
Proof. solve_decision. Defined.

#[global] Instance event_eq_dec : EqDecision event.
Proof. solve_decision. Defined.

(** What the process reads and never writes. [default_timer n] is the value
    the [n]-th call of [timeit.default_timer] returns, in clock ticks;
    [child_exit cmd] is the exit status of the child process [cmd], [None]
    when it cannot be started. *)
Record Host : Type := {
  environ : gmap string string;
  sys_platform : string;
  os_path_join : string -> string -> string;
  os_path_abspath : string -> string;
  script_dir : string;
  gettempdir : string;
  default_timer : nat -> Z;
  child_exit : list string -> option Z
}.

(** What the process changes. [exists_] holds the paths the script names that
    exist as directories; the script only ever asks about, deletes and
    creates its own build directory. *)
Record state : Type := {
  timeToClean : Z;
  timeToGenerate : Z;
  timeToBuild : Z;
  cwd : string;
  exists_ : gset string;
  timer_calls : nat;
  trace : list event
}.

Definition set_timeToClean (t : Z) (s : state) : state :=
  {| timeToClean := t; timeToGenerate := timeToGenerate s;
     timeToBuild := timeToBuild s; cwd := cwd s; exists_ := exists_ s;
     timer_calls := timer_calls s; trace := trace s |}.

Definition set_timeToGenerate (t : Z) (s : state) : state :=
  {| timeToClean := timeToClean s; timeToGenerate := t;
     timeToBuild := timeToBuild s; cwd := cwd s; exists_ := exists_ s;
     timer_calls := timer_calls s; trace := trace s |}.

Definition set_timeToBuild (t : Z) (s : state) : state :=
  {| timeToClean := timeToClean s; timeToGenerate := timeToGenerate s;
     timeToBuild := t; cwd := cwd s; exists_ := exists_ s;
     timer_calls := timer_calls s; trace := trace s |}.

Definition set_cwd (p : string) (s : state) : state :=
  {| timeToClean := timeToClean s; timeToGenerate := timeToGenerate s;
     timeToBuild := timeToBuild s; cwd := p; exists_ := exists_ s;
     timer_calls := timer_calls s; trace := trace s |}.

Definition set_exists (d : gset string) (s : state) : state :=
  {| timeToClean := timeToClean s; timeToGenerate := timeToGenerate s;
     timeToBuild := timeToBuild s; cwd := cwd s; exists_ := d;
     timer_calls := timer_calls s; trace := trace s |}.

Definition tick (s : state) : state :=
  {| timeToClean := timeToClean s; timeToGenerate := timeToGenerate s;
     timeToBuild := timeToBuild s; cwd := cwd s; exists_ := exists_ s;
     timer_calls := S (timer_calls s); trace := trace s |}.

Definition log (e : event) (s : state) : state :=
  {| timeToClean := timeToClean s; timeToGenerate := timeToGenerate s;
     timeToBuild := timeToBuild s; cwd := cwd s; exists_ := exists_ s;
     timer_calls := timer_calls s; trace := trace s ++ [e] |}.

(** ** The monad *)

Inductive outcome (A : Type) : Type :=
| Return (a : A)
| Raise (e : exn).
Arguments Return {A} a.
Arguments Raise {A} e.

Definition M (A : Type) : Type := state -> outcome A * state.

#[global] Instance M_ret : MRet M := fun A a s => (Return a, s).

#[global] Instance M_bind : MBind M := fun A B f m s =>
  match m s with
  | (Return a, s') => f a s'
  | (Raise e, s') => (Raise e, s')
  end.

Definition raise {A : Type} (e : exn) : M A := fun s => (Raise e, s).

(** [try: body except <handles>: handler; raise]. *)
Definition try_reraise {A : Type} (body : M A) (handles : exn -> bool)
    (handler : M unit) : M A := fun s =>
  match body s with
  | (Return a, s') => (Return a, s')
  | (Raise e, s') =>
      if handles e then
        match handler s' with
        | (Return _, s'') => (Raise e, s'')
        | (Raise e', s'') => (Raise e', s'')
        end
      else (Raise e, s')
  end.

Definition gets {A : Type} (f : state -> A) : M A := fun s => (Return (f s), s).
Definition modify (f : state -> state) : M unit := fun s => (Return tt, f s).
Definition emit (e : event) : M unit := modify (log e).
Definition print (line : string) : M unit := emit (Print line).

(** ** Command-line arguments ([parse_args]) *)

Module Args.

(** The namespace [argparse] returns: a [type=str] option is [None] when the
    flag is absent, a [store_true] option is [False]. *)
Record t : Type := {
  operation : option string;
  platform : option string;
  arch : option string;
  config : option string;
  compiler : option string;
  cmaketarget : option string;
  vcpkgdir : option string;
  clean : bool;
  runtests : bool;
  as_service : bool
}.

End Args.

Definition script_args : Type := Args.t.

(** The module-level flag [VERBOSE]; nothing in the script assigns it. *)
Definition VERBOSE : bool := true.

(** ** The runner classes *)

Inductive runner_class : Type :=
| WindowsBuildRunner
| LinuxBuildRunner
| OsxBuildRunner.

#[global] Instance runner_class_eq_dec : EqDecision runner_class.
Proof. solve_decision. Defined.

(** The attributes [__init__] assigns once.  [_compiler] is assigned by the
    Linux and OsX classes only.  The three timing attributes are assigned
    again by the phases and live in [state]. *)
Record BuildRunner : Type := {
  class : runner_class;
  operation_type : option string;
  project_root_path : string;
  vcpkg_root_path : option string;
  cmake_target : option string;
  script_args_of : script_args;
  is_clean_build : bool;
  run_tests : bool;
  arch : string;
  config : string;
  as_service : bool;
  source_path : string;
  _compiler : option string
}.

Section Script.

Context (h : Host).

(** *** Util functions *)

Definition get_env_var (name : string) : option string :=
  environ h !! Py.upper name.

Definition get_os_name : string :=
  Py.if_truthy (get_env_var "AGENT_OS") Py.lower (Py.lower (sys_platform h)).

Definition is_running_on_windows : bool := Py.startswith get_os_name "win".
Definition is_running_on_linux : bool := Py.startswith get_os_name "linux".
Definition is_running_on_osx : bool := Py.startswith get_os_name "darwin".

(** [os.path.join] with three and four components. *)
Definition join3 (a b c : string) : string :=
  os_path_join h (os_path_join h a b) c.
Definition join4 (a b c d : string) : string :=
  os_path_join h (join3 a b c) d.

Definition get_project_root_path : M string :=
  print ("script_path=" +:+ script_dir h);;
  mret (os_path_abspath h (os_path_join h (script_dir h) "..")).

Definition get_cmake_files_path (root_path : string) : string :=
  os_path_abspath h (join3 root_path "build" "cmake").

Definition get_cmake_toolchain_file_name (platform arch compiler : string)
    : string :=
  "toolchain-" +:+ platform +:+ "-" +:+ arch +:+ "-" +:+ compiler +:+ ".cmake".

Definition get_cmake_toolchain_file_path
    (platform arch compiler root_path : string) : string :=
  os_path_join h (get_cmake_files_path root_path)
    (get_cmake_toolchain_file_name platform arch compiler).

(** [os.path.join(None, ...)] raises [TypeError]. *)
Definition get_vcpkg_toolchain_file_path (root_path : option string)
    : M string :=
  match root_path with
  | Some p =>
      mret (os_path_abspath h (join4 p "scripts" "buildsystems" "vcpkg.cmake"))
  | None =>
      raise (TypeError
        "expected str, bytes or os.PathLike object, not NoneType")
  end.

Definition get_default_build_path (flavor : string) : string :=
  join3 (gettempdir h) "build_do_proxywrapper" flavor.

(** [subprocess.check_call]: the child is started, and a non-zero exit
    status raises [CalledProcessError]. *)
Definition check_call (command : list string) (quiet : bool) : M unit :=
  match child_exit h command with
  | None => raise (OSError command)
  | Some code =>
      emit (Spawn command quiet);;
      if code =? 0 then mret tt else raise (CalledProcessError code command)
  end.

(** [subprocess.call]: the exit status is returned, whatever it is. *)
Definition call (command : list string) : M Z :=
  match child_exit h command with
  | None => raise (OSError command)
  | Some code => emit (Spawn command false);; mret code
  end.

Definition _check_call (command : list string) : M unit :=
  if VERBOSE then check_call command false else check_call command true.

Definition is_CalledProcessError (e : exn) : bool :=
  match e with CalledProcessError _ _ => true | _ => false end.

Definition run_command (command : list string) : M unit :=
  let command_string := Py.join " " command in
  try_reraise
    (print ("Running command " +:+ command_string +:+ ".");;
     _check_call command)
    is_CalledProcessError
    (print ("Running " +:+ command_string +:+ " failed. Rethrowing exception")).

(** [timeit.default_timer()]. *)
Definition timer : M Z := fun s =>
  (Return (default_timer h (timer_calls s)), tick s).

(** *** Properties of the runner *)

(** [platform] depends on the class alone, and [__init__] of the base class
    already reads it. *)
Definition platform_of (c : runner_class) : string :=
  match c with
  | WindowsBuildRunner => "windows"
  | LinuxBuildRunner => "linux"
  | OsxBuildRunner => "osx"
  end.

Definition platform (self : BuildRunner) : string := platform_of (class self).

Definition compiler (self : BuildRunner) : string :=
  match class self with
  | WindowsBuildRunner => "msvc"
  | LinuxBuildRunner | OsxBuildRunner => default "" (_compiler self)
  end.

Definition generator (self : BuildRunner) : option string :=
  match class self with
  | WindowsBuildRunner =>
      if Py.eqb (arch self) "x64"
      then Some "Visual Studio 15 2017 Win64"
      else Some "Visual Studio 15 2017"
  | LinuxBuildRunner | OsxBuildRunner => Some "Unix Makefiles"
  end.

Definition flavor (self : BuildRunner) : string :=
  platform self +:+ "-" +:+ arch self +:+ "-" +:+ compiler self
    +:+ "-" +:+ config self.

Definition build_path (self : BuildRunner) : string :=
  get_default_build_path (flavor self).

(** *** Constructors *)

(** Lines 148-153 of [BuildRunnerBase.__init__]: the value given to
    [self.arch]. *)
Definition resolve_arch (a : script_args) : string :=
  Py.if_truthy (Args.arch a) Py.lower
    (Py.if_truthy (get_env_var "BUILD_ARCHITECTURE") id "x64").

(** Lines 159-164: the value given to [self.config]. *)
Definition resolve_config (a : script_args) : string :=
  Py.if_truthy (Args.config a) Py.lower
    (Py.if_truthy (get_env_var "BUILD_CONFIGURATION") Py.lower "debug").

(** Line 138: the value given to [self.vcpkg_root_path]. *)
Definition resolve_vcpkg_root_path (a : script_args) : option string :=
  match Args.vcpkgdir a with
  | None => get_env_var "BUILD_VCPKGDIR"
  | Some v => Some v
  end.

(** Lines 139-144: the value given to [self.cmake_target]. *)
Definition resolve_cmake_target (a : script_args) : option string :=
  match Args.cmaketarget a with
  | None => if negb (Args.runtests a) then Some "all" else None
  | Some t => Some t
  end.

(** The first [if] of [LinuxBuildRunner.__init__] and of
    [OsxBuildRunner.__init__]: the value given to [self._compiler]. *)
Definition resolve_compiler (a : script_args) : string :=
  Py.if_truthy (Args.compiler a) Py.lower
    (Py.if_truthy (get_env_var "BUILD_COMPILER") Py.lower "gnu").

Definition supported_arch (v : string) : bool :=
  Py.eqb v "x64" || Py.eqb v "x86" || Py.eqb v "arm".

Definition supported_config (v : string) : bool :=
  Py.eqb v "debug" || Py.eqb v "release".

Definition supported_unix_compiler (v : string) : bool :=
  Py.eqb v "gnu" || Py.eqb v "clang".

Definition unsupported_arch_msg (v : string) (c : runner_class) : string :=
  "Building " +:+ v +:+ " architecture for " +:+ platform_of c
    +:+ " is not supported.".

Definition unsupported_config_msg (v : string) (c : runner_class) : string :=
  "Building " +:+ v +:+ " configuration for " +:+ platform_of c
    +:+ " is not supported.".

(** [BuildRunnerBase.__init__], run for an object of class [c]. *)
Definition BuildRunnerBase_init (c : runner_class) (a : script_args)
    : M BuildRunner :=
  modify (set_timeToClean 0);;
  modify (set_timeToGenerate 0);;
  modify (set_timeToBuild 0);;
  project_root ← get_project_root_path;
  let arch_ := resolve_arch a in
  if negb (supported_arch arch_)
  then raise (ValueError (unsupported_arch_msg arch_ c))
  else
    let config_ := resolve_config a in
    if negb (supported_config config_)
    then raise (ValueError (unsupported_config_msg config_ c))
    else
      source ← get_project_root_path;
      mret {| class := c;
              operation_type := Args.operation a;
              project_root_path := project_root;
              vcpkg_root_path := resolve_vcpkg_root_path a;
              cmake_target := resolve_cmake_target a;
              script_args_of := a;
              is_clean_build := Args.clean a;
              run_tests := Args.runtests a;
              arch := arch_;
              config := config_;
              as_service := Args.as_service a;
              source_path := source;
              _compiler := None |}.

Definition set_compiler (v : string) (self : BuildRunner) : BuildRunner :=
  {| class := class self;
     operation_type := operation_type self;
     project_root_path := project_root_path self;
     vcpkg_root_path := vcpkg_root_path self;
     cmake_target := cmake_target self;
     script_args_of := script_args_of self;
     is_clean_build := is_clean_build self;
     run_tests := run_tests self;
     arch := arch self;
     config := config self;
     as_service := as_service self;
     source_path := source_path self;
     _compiler := Some v |}.

Definition arm_warning : string :=
  "
    Uh Oh! Windows arm builds are broken right now. Expect to hit errors when running arm flavors of the build.".

Definition WindowsBuildRunner_init (a : script_args) : M BuildRunner :=
  self ← BuildRunnerBase_init WindowsBuildRunner a;
  match Args.compiler a with
  | Some v =>
      if negb (Py.eqb (Py.lower v) (compiler self))
      then raise (ValueError
             "Only msvc compiler is supported for building on Windows.")
      else mret tt
  | None => mret tt
  end;;
  (if Py.startswith (arch self) "arm" then emit (Warn arm_warning)
   else mret tt);;
  mret self.

Definition LinuxBuildRunner_init (a : script_args) : M BuildRunner :=
  base ← BuildRunnerBase_init LinuxBuildRunner a;
  let self := set_compiler (resolve_compiler a) base in
  if negb (supported_unix_compiler (compiler self))
  then raise (ValueError
         "Only gnu and clang compilers are supported for building on Linux.")
  else mret self.

Definition OsxBuildRunner_init (a : script_args) : M BuildRunner :=
  base ← BuildRunnerBase_init OsxBuildRunner a;
  let self := set_compiler (resolve_compiler a) base in
  if negb (supported_unix_compiler (compiler self))
  then raise (ValueError
         "Only gnu and clang compilers are supported for building on OsX.")
  else mret self.

(** [create_build_runner]: the class is chosen from [--platform] and the
    host, and its constructor is run. *)
Definition create_build_runner (a : script_args) : M BuildRunner :=
  match Args.platform a with
  | None =>
      if is_running_on_windows then WindowsBuildRunner_init a
      else if is_running_on_linux then LinuxBuildRunner_init a
      else if is_running_on_osx then OsxBuildRunner_init a
      else raise (ValueError
        "Target platform was not specified and could not be deduced from the current host environment.")
  | Some p =>
      if Py.eqb (Py.lower p) "windows" then
        if is_running_on_windows then WindowsBuildRunner_init a
        else raise (NotSupportedHostEnvironmentError
          "Building for Windows on this host environment is not supported.")
      else if Py.eqb (Py.lower p) "linux" then
        if is_running_on_linux then LinuxBuildRunner_init a
        else raise (NotSupportedHostEnvironmentError
          "Building for Linux on this host environment is not supported.")
      else if Py.eqb (Py.lower p) "osx" then
        if is_running_on_osx then LinuxBuildRunner_init a
        else raise (NotSupportedHostEnvironmentError
          "Building for OsX on this host environment is not supported.")
      else raise (NotSupportedTargetPlatformError
        ("Currently builds for " +:+ Py.lower p +:+ " are not supported."))
  end.

(** *** Commands *)

(** [BuildRunnerBase.generate_options]. *)
Definition base_generate_options (self : BuildRunner) : list string :=
  match generator self with Some g => ["-G"; g] | None => [] end
  ++ (if Py.eqb (Py.lower (config self)) "debug"
      then ["-DCMAKE_BUILD_TYPE=Debug"]
      else ["-DCMAKE_BUILD_TYPE=Release"])
  ++ (if as_service self then ["-DDO_BUILD_AS_SERVICE=ON"] else []).

Definition _vcpkg_triplet (self : BuildRunner) : string :=
  arch self +:+ "-" +:+ platform self.

(** [LinuxBuildRunner.generate_options] and [OsxBuildRunner.generate_options],
    which have the same text. *)
Definition unix_generate_options (self : BuildRunner) : M (list string) :=
  let toolchain_file_path :=
    get_cmake_toolchain_file_path (platform self) (arch self) (compiler self)
      (project_root_path self) in
  vcpkg_file ← get_vcpkg_toolchain_file_path (vcpkg_root_path self);
  let generate_options :=
    base_generate_options self
    ++ ["-DCMAKE_TOOLCHAIN_FILE=" +:+ vcpkg_file;
        "-DVCPKG_CHAINLOAD_TOOLCHAIN_FILE=" +:+ toolchain_file_path] in
  if Py.startswith (arch self) "arm" then
    match get_env_var "ZLIB_ROOT_DIR" with
    | Some zlib_dir => mret (generate_options ++ ["-DZLIB_ROOT=" +:+ zlib_dir])
    | None => mret generate_options
    end
  else mret generate_options.

Definition generate_options (self : BuildRunner) : M (list string) :=
  match class self with
  | WindowsBuildRunner =>
      vcpkg_file ← get_vcpkg_toolchain_file_path (vcpkg_root_path self);
      mret (base_generate_options self
            ++ ["-DCMAKE_TOOLCHAIN_FILE=" +:+ vcpkg_file;
                "-DVCPKG_TARGET_TRIPLET=" +:+ _vcpkg_triplet self])
  | LinuxBuildRunner | OsxBuildRunner => unix_generate_options self
  end.

Definition create_generate_command (self : BuildRunner) : M (list string) :=
  opts ← generate_options self;
  mret (["cmake"; source_path self] ++ opts).

(** [build_options].  A [None] target would make [' '.join] raise
    [TypeError] in [build] before anything is printed; the exception is
    raised here, where the item enters the list. *)
Definition build_options (self : BuildRunner) : M (list string) :=
  match cmake_target self with
  | None => raise (TypeError
      "sequence item 4: expected str instance, NoneType found")
  | Some target =>
      match class self with
      | WindowsBuildRunner =>
          mret (["--target"; target] ++ ["--config"; config self])
      | LinuxBuildRunner | OsxBuildRunner => mret ["--target"; target]
      end
  end.

Definition create_build_command (self : BuildRunner) : M (list string) :=
  opts ← build_options self;
  mret (["cmake"; "--build"; build_path self] ++ opts).

(** *** File system and working directory *)

Definition path_exists (p : string) : M bool :=
  gets (fun s => bool_decide (p ∈ exists_ s)).

Definition rmtree (p : string) : M unit :=
  emit (Rmtree p);;
  modify (fun s => set_exists (exists_ s ∖ {[p]}) s).

(** [os.makedirs(p, exist_ok=True)]. *)
Definition makedirs (p : string) : M unit :=
  emit (Makedirs p);;
  modify (fun s => set_exists ({[p]} ∪ exists_ s) s).

Definition getcwd : M string := gets cwd.

Definition chdir (p : string) : M unit :=
  emit (Chdir p);;
  modify (set_cwd p).

(** *** The phases *)

Definition print_start_build_msg (self : BuildRunner) : M unit :=
  print "Starting Build";;
  print ("Target OS: " +:+ Py.capitalize (platform self));;
  print ("Flavor: " +:+ flavor self);;
  print ("Arch: " +:+ arch self);;
  print ("Config: " +:+ config self);;
  print ("CMake Target: " +:+ Py.str_opt (cmake_target self));;
  print ("CMake Generator: " +:+ Py.str_opt (generator self));;
  print ("Compiler: " +:+ compiler self);;
  print ("Clean: " +:+ Py.str_bool (is_clean_build self));;
  print ("Source Path: " +:+ source_path self);;
  print ("Build Path: " +:+ build_path self).

Definition print_end_build_msg : M unit := print "Build Complete".

Definition print_times : M unit :=
  t ← gets timeToClean; emit (PrintTime "Time to clean: " t);;
  t ← gets timeToGenerate; emit (PrintTime "Time to generate: " t);;
  t ← gets timeToBuild; emit (PrintTime "Time to build: " t).

Definition clean (self : BuildRunner) : M unit :=
  emit (Call m_clean);;
  let build_path := build_path self in
  print ("Purging: " +:+ build_path);;
  start_time ← timer;
  found ← path_exists build_path;
  (if (found : bool) then rmtree build_path else mret tt);;
  now ← timer;
  modify (set_timeToClean (now - start_time)).

Definition generate (self : BuildRunner) : M unit :=
  emit (Call m_generate);;
  match vcpkg_root_path self with
  | None => raise (ValueError "vcpkg root directory was not specified")
  | Some _ =>
      original_dir ← getcwd;
      makedirs (build_path self);;
      chdir (build_path self);;
      generate_command ← create_generate_command self;
      start_time ← timer;
      run_command generate_command;;
      now ← timer;
      modify (set_timeToGenerate (now - start_time));;
      chdir original_dir
  end.

Definition build (self : BuildRunner) : M unit :=
  emit (Call m_build);;
  build_command ← create_build_command self;
  print ("Executing: " +:+ Py.join " " build_command);;
  start_time ← timer;
  run_command build_command;;
  now ← timer;
  modify (set_timeToBuild (now - start_time)).

(** [tests].  The third test, [build.is_running_on_osx()], reads the name
    [build], which the module does not define. *)
Definition tests (self : BuildRunner) : M unit :=
  emit (Call m_tests);;
  let directory := join3 (gettempdir h) (build_path self) "test" in
  test_exe_name ←
    (if is_running_on_windows
     then mret (os_path_join h directory "docs_tests.exe")
     else if is_running_on_linux
     then mret (os_path_join h directory "docs_tests")
     else raise (NameError "name 'build' is not defined"));
  call [test_exe_name];;
  mret tt.

Definition run (self : BuildRunner) : M unit :=
  match cmake_target self with
  | Some _ =>
      print_start_build_msg self;;
      (if is_clean_build self then clean self else mret tt);;
      Py.if_truthy (operation_type self)
        (fun op =>
           if Py.eqb (Py.lower op) "generate" then generate self
           else if Py.eqb (Py.lower op) "build" then build self
           else if Py.eqb (Py.lower op) "cleanonly" then
             (if negb (is_clean_build self) then clean self else mret tt)
           else raise (ValueError ("Invalid operation specified: " +:+ op)))
        (generate self;; build self);;
      print_end_build_msg;;
      print_times
  | None => mret tt
  end;;
  if run_tests self then tests self else mret tt.

Definition main (a : script_args) : M unit :=
  build ← create_build_runner a;
  run build.

End Script.

(** ** Concrete hosts and arguments *)

Module Sample.

(** Two path components joined by the separator [sep], the second one
    winning when it starts with the separator. *)
Definition join_with (sep a b : string) : string :=
  if Py.startswith b sep then b
  else if negb (Py.truthy a) then b
  else a +:+ sep +:+ b.

Definition backslash : string := String (ascii_of_nat 92) EmptyString.

Definition on_windows (platform : string) : bool :=
  Py.startswith (Py.lower platform) "win".

(** A host whose [sys.platform] is [platform] and whose environment is
    [env]: the timer advances by [step] ticks from one reading to the next,
    and every child exits with status [code].  The paths it hands out are
    absolute already, and [abspath] leaves them as they are. *)
Definition host (platform : string) (env : gmap string string) (step : Z)
    (code : Z) : Host :=
  {| environ := env;
     sys_platform := platform;
     os_path_join := join_with (if on_windows platform then backslash else "/");
     os_path_abspath := id;
     script_dir :=
       if on_windows platform
       then "C:" +:+ backslash +:+ "repo" +:+ backslash +:+ "build"
       else "/repo/build";
     gettempdir :=
       if on_windows platform then "C:" +:+ backslash +:+ "Temp" else "/tmp";
     default_timer := fun n => 100 + step * Z.of_nat n;
     child_exit := fun _ => Some code |}.

(** The state of a fresh process started in [/work], where the directories
    of [dirs] exist. *)
Definition start (dirs : gset string) : state :=
  {| timeToClean := 0; timeToGenerate := 0; timeToBuild := 0;
     cwd := "/work"; exists_ := dirs; timer_calls := 0; trace := [] |}.

(** No flag given. *)
Definition no_args : script_args :=
  {| Args.operation := None; Args.platform := None; Args.arch := None;
     Args.config := None; Args.compiler := None; Args.cmaketarget := None;
     Args.vcpkgdir := None; Args.clean := false; Args.runtests := false;
     Args.as_service := false |}.

Definition with_platform (v : string) (a : script_args) : script_args :=
  {| Args.operation := Args.operation a; Args.platform := Some v;
     Args.arch := Args.arch a; Args.config := Args.config a;
     Args.compiler := Args.compiler a; Args.cmaketarget := Args.cmaketarget a;
     Args.vcpkgdir := Args.vcpkgdir a; Args.clean := Args.clean a;
     Args.runtests := Args.runtests a; Args.as_service := Args.as_service a |}.

Definition with_operation (v : string) (a : script_args) : script_args :=
  {| Args.operation := Some v; Args.platform := Args.platform a;
     Args.arch := Args.arch a; Args.config := Args.config a;
     Args.compiler := Args.compiler a; Args.cmaketarget := Args.cmaketarget a;
     Args.vcpkgdir := Args.vcpkgdir a; Args.clean := Args.clean a;
     Args.runtests := Args.runtests a; Args.as_service := Args.as_service a |}.

Definition with_arch (v : string) (a : script_args) : script_args :=
  {| Args.operation := Args.operation a; Args.platform := Args.platform a;
     Args.arch := Some v; Args.config := Args.config a;
     Args.compiler := Args.compiler a; Args.cmaketarget := Args.cmaketarget a;
     Args.vcpkgdir := Args.vcpkgdir a; Args.clean := Args.clean a;
     Args.runtests := Args.runtests a; Args.as_service := Args.as_service a |}.

Definition with_config (v : string) (a : script_args) : script_args :=
  {| Args.operation := Args.operation a; Args.platform := Args.platform a;
     Args.arch := Args.arch a; Args.config := Some v;
     Args.compiler := Args.compiler a; Args.cmaketarget := Args.cmaketarget a;
     Args.vcpkgdir := Args.vcpkgdir a; Args.clean := Args.clean a;
     Args.runtests := Args.runtests a; Args.as_service := Args.as_service a |}.

Definition with_compiler (v : string) (a : script_args) : script_args :=
  {| Args.operation := Args.operation a; Args.platform := Args.platform a;
     Args.arch := Args.arch a; Args.config := Args.config a;
     Args.compiler := Some v; Args.cmaketarget := Args.cmaketarget a;
     Args.vcpkgdir := Args.vcpkgdir a; Args.clean := Args.clean a;
     Args.runtests := Args.runtests a; Args.as_service := Args.as_service a |}.

Definition with_cmaketarget (v : string) (a : script_args) : script_args :=
  {| Args.operation := Args.operation a; Args.platform := Args.platform a;
     Args.arch := Args.arch a; Args.config := Args.config a;
     Args.compiler := Args.compiler a; Args.cmaketarget := Some v;
     Args.vcpkgdir := Args.vcpkgdir a; Args.clean := Args.clean a;
     Args.runtests := Args.runtests a; Args.as_service := Args.as_service a |}.

Definition with_vcpkgdir (v : string) (a : script_args) : script_args :=
  {| Args.operation := Args.operation a; Args.platform := Args.platform a;
     Args.arch := Args.arch a; Args.config := Args.config a;
     Args.compiler := Args.compiler a; Args.cmaketarget := Args.cmaketarget a;
     Args.vcpkgdir := Some v; Args.clean := Args.clean a;
     Args.runtests := Args.runtests a; Args.as_service := Args.as_service a |}.

Definition with_clean (a : script_args) : script_args :=
  {| Args.operation := Args.operation a; Args.platform := Args.platform a;
     Args.arch := Args.arch a; Args.config := Args.config a;
     Args.compiler := Args.compiler a; Args.cmaketarget := Args.cmaketarget a;
     Args.vcpkgdir := Args.vcpkgdir a; Args.clean := true;
     Args.runtests := Args.runtests a; Args.as_service := Args.as_service a |}.

Definition with_runtests (a : script_args) : script_args :=
  {| Args.operation := Args.operation a; Args.platform := Args.platform a;
     Args.arch := Args.arch a; Args.config := Args.config a;
     Args.compiler := Args.compiler a; Args.cmaketarget := Args.cmaketarget a;
     Args.vcpkgdir := Args.vcpkgdir a; Args.clean := Args.clean a;
     Args.runtests := true; Args.as_service := Args.as_service a |}.

End Sample.

(** * Properties *)

(** ** Reading runs *)

(** [logs evs s]: the state [s] after the events [evs]. *)
Definition logs (evs : list event) (s : state) : state :=
  {| timeToClean := timeToClean s; timeToGenerate := timeToGenerate s;
     timeToBuild := timeToBuild s; cwd := cwd s; exists_ := exists_ s;
     timer_calls := timer_calls s; trace := trace s ++ evs |}.

(** How often the method [m] is entered in the events [evs]. *)
Definition is_call (m : method) (e : event) : bool :=
  match e with Call m' => bool_decide (m' = m) | _ => false end.

Definition calls (m : method) (evs : list event) : nat :=
  List.length (List.filter (is_call m) evs).

Definition is_spawn (e : event) : bool :=
  match e with Spawn _ _ => true | _ => false end.

Definition is_rmtree (e : event) : bool :=
  match e with Rmtree _ => true | _ => false end.

(** Events that create a directory or change the working directory. *)
Definition moves_or_creates (e : event) : bool :=
  match e with Makedirs _ | Chdir _ => true | _ => false end.

Lemma bind_run {A B : Type} (m : M A) (f : A -> M B) (s : state) :
  (m ≫= f) s =
  match m s with
  | (Return a, s') => f a s'
  | (Raise e, s') => (Raise e, s')
  end.
Proof. reflexivity. Qed.

Lemma bind_return {A B : Type} (m : M A) (f : A -> M B) s a s' :
  m s = (Return a, s') -> (m ≫= f) s = f a s'.
Proof. intros E. rewrite bind_run, E. reflexivity. Qed.

Lemma bind_raise {A B : Type} (m : M A) (f : A -> M B) s e s' :
  m s = (Raise e, s') -> (m ≫= f) s = (Raise e, s').
Proof. intros E. rewrite bind_run, E. reflexivity. Qed.

Lemma state_eta (s : state) :
  {| timeToClean := timeToClean s; timeToGenerate := timeToGenerate s;
     timeToBuild := timeToBuild s; cwd := cwd s; exists_ := exists_ s;
     timer_calls := timer_calls s; trace := trace s |} = s.
Proof. destruct s; reflexivity. Qed.

Lemma logs_nil (s : state) : logs [] s = s.
Proof. unfold logs. rewrite app_nil_r. apply state_eta. Qed.

Lemma logs_logs (e1 e2 : list event) (s : state) :
  logs e2 (logs e1 s) = logs (e1 ++ e2) s.
Proof. unfold logs; cbn. rewrite app_assoc. reflexivity. Qed.

Lemma truthy_nonempty (v : string) : v <> "" -> Py.truthy v = true.
Proof. destruct v; [congruence | reflexivity]. Qed.

Lemma if_truthy_some {A : Type} (v : string) (f : string -> A) (d : A) :
  v <> "" -> Py.if_truthy (Some v) f d = f v.
Proof. intros H. unfold Py.if_truthy. rewrite truthy_nonempty; auto. Qed.

Lemma if_truthy_falsy {A : Type} (o : option string) (f : string -> A) (d : A) :
  Py.truthy_opt o = false -> Py.if_truthy o f d = d.
Proof.
  destruct o as [v|]; cbn; [|reflexivity]. intros ->. reflexivity.
Qed.

Lemma eqb_false (a b : string) : a <> b -> Py.eqb a b = false.
Proof. intros H. apply String.eqb_neq. exact H. Qed.

Lemma supported_arch_false (v : string) :
  v <> "x86" -> v <> "x64" -> v <> "arm" -> supported_arch v = false.
Proof.
  intros H1 H2 H3. unfold supported_arch.
  rewrite !eqb_false by assumption. reflexivity.
Qed.

(** *** The constructors *)

(** The state in which [__init__] of the base class raises: the timings are
    reset and the project root has been printed once. *)
Definition init_failed (h : Host) (s : state) : state :=
  {| timeToClean := 0; timeToGenerate := 0; timeToBuild := 0;
     cwd := cwd s; exists_ := exists_ s; timer_calls := timer_calls s;
     trace := trace s ++ [Print ("script_path=" +:+ script_dir h)] |}.

(** The state in which it returns. *)
Definition init_done (h : Host) (s : state) : state :=
  log (Print ("script_path=" +:+ script_dir h)) (init_failed h s).

(** The runner it returns. *)
Definition base_runner (h : Host) (c : runner_class) (a : script_args)
    : BuildRunner :=
  let root := os_path_abspath h (os_path_join h (script_dir h) "..") in
  {| class := c;
     operation_type := Args.operation a;
     project_root_path := root;
     vcpkg_root_path := resolve_vcpkg_root_path h a;
     cmake_target := resolve_cmake_target a;
     script_args_of := a;
     is_clean_build := Args.clean a;
     run_tests := Args.runtests a;
     arch := resolve_arch h a;
     config := resolve_config h a;
     as_service := Args.as_service a;
     source_path := root;
     _compiler := None |}.

Lemma BuildRunnerBase_init_run h c a s :
  BuildRunnerBase_init h c a s =
  if supported_arch (resolve_arch h a) then
    if supported_config (resolve_config h a)
    then (Return (base_runner h c a), init_done h s)
    else (Raise (ValueError (unsupported_config_msg (resolve_config h a) c)),
          init_failed h s)
  else (Raise (ValueError (unsupported_arch_msg (resolve_arch h a) c)),
        init_failed h s).
Proof.
  unfold BuildRunnerBase_init.
  destruct (supported_arch (resolve_arch h a));
    [destruct (supported_config (resolve_config h a))|]; reflexivity.
Qed.

(** Unfolds the monad's operations, leaving the script's functions folded. *)
Ltac mred :=
  cbv beta iota zeta delta
    [mret M_ret mbind M_bind raise emit modify gets print getcwd].

(** The runner the Linux and OsX constructors return. *)
Definition unix_runner (h : Host) (c : runner_class) (a : script_args)
    : BuildRunner :=
  set_compiler (resolve_compiler h a) (base_runner h c a).

(** The states a constructor that returns can leave: the timings reset, the
    project root printed twice, and (Windows, [arm]) the warning issued. *)
Definition constructed (h : Host) (s s' : state) : Prop :=
  s' = init_done h s \/ s' = log (Warn arm_warning) (init_done h s).

Lemma WindowsBuildRunner_init_inv h a s self s' :
  WindowsBuildRunner_init h a s = (Return self, s') ->
  self = base_runner h WindowsBuildRunner a /\ constructed h s s'.
Proof.
  unfold WindowsBuildRunner_init, constructed.
  rewrite bind_run, BuildRunnerBase_init_run.
  destruct (supported_arch _); [|discriminate].
  destruct (supported_config _); [|discriminate].
  mred.
  destruct (Args.compiler a) as [v|];
    [destruct (negb _); [discriminate|]|];
    (destruct (Py.startswith _ _); mred; intros [= <- <-]; auto).
Qed.

Lemma LinuxBuildRunner_init_inv h a s self s' :
  LinuxBuildRunner_init h a s = (Return self, s') ->
  self = unix_runner h LinuxBuildRunner a /\ constructed h s s'.
Proof.
  unfold LinuxBuildRunner_init, constructed.
  rewrite bind_run, BuildRunnerBase_init_run.
  destruct (supported_arch _); [|discriminate].
  destruct (supported_config _); [|discriminate].
  mred. unfold unix_runner.
  destruct (negb _); mred; intros [= <- <-]; auto.
Qed.

Lemma OsxBuildRunner_init_inv h a s self s' :
  OsxBuildRunner_init h a s = (Return self, s') ->
  self = unix_runner h OsxBuildRunner a /\ constructed h s s'.
Proof.
  unfold OsxBuildRunner_init, constructed.
  rewrite bind_run, BuildRunnerBase_init_run.
  destruct (supported_arch _); [|discriminate].
  destruct (supported_config _); [|discriminate].
  mred. unfold unix_runner.
  destruct (negb _); mred; intros [= <- <-]; auto.
Qed.

Lemma create_build_runner_inv' h a s self s' :
  create_build_runner h a s = (Return self, s') ->
  (self = base_runner h WindowsBuildRunner a
   \/ self = unix_runner h LinuxBuildRunner a
   \/ self = unix_runner h OsxBuildRunner a)
  /\ constructed h s s'.
Proof.
  unfold create_build_runner. intros E.
  repeat match type of E with
  | match ?o with Some _ => _ | None => _ end _ = _ => destruct o
  | (if ?b then _ else _) _ = _ => destruct b
  end;
  first [ discriminate E
        | apply WindowsBuildRunner_init_inv in E as [-> ?]; auto
        | apply LinuxBuildRunner_init_inv in E as [-> ?]; auto
        | apply OsxBuildRunner_init_inv in E as [-> ?]; auto ].
Qed.

Lemma create_build_runner_inv h a s self s' :
  create_build_runner h a s = (Return self, s') ->
  self = base_runner h WindowsBuildRunner a
  \/ self = unix_runner h LinuxBuildRunner a
  \/ self = unix_runner h OsxBuildRunner a.
Proof. intros E. exact (proj1 (create_build_runner_inv' _ _ _ _ _ E)). Qed.

(** The base-class attributes of a constructed runner. *)
Lemma create_build_runner_fields h a s self s' :
  create_build_runner h a s = (Return self, s') ->
  operation_type self = Args.operation a
  /\ vcpkg_root_path self = resolve_vcpkg_root_path h a
  /\ cmake_target self = resolve_cmake_target a
  /\ is_clean_build self = Args.clean a
  /\ run_tests self = Args.runtests a
  /\ arch self = resolve_arch h a
  /\ config self = resolve_config h a.
Proof.
  intros E. destruct (create_build_runner_inv _ _ _ _ _ E) as [-> | [-> | ->]];
    repeat split.
Qed.

(** ** Selection of the runner class *)

(** With [--platform osx] on a host that runs OsX, [create_build_runner]
    runs the constructor of the Linux class. *)
Lemma create_build_runner_osx_flag h a p :
  Args.platform a = Some p -> Py.lower p = "osx" ->
  is_running_on_osx h = true ->
  create_build_runner h a = LinuxBuildRunner_init h a.
Proof.
  intros Hp Hlow Hosx. unfold create_build_runner.
  rewrite Hp, Hlow, Hosx. reflexivity.
Qed.

(** C1, evaluated where it fails: [--platform osx] on a host whose
    [sys.platform] is [darwin] yields a runner of the Linux class, whose
    platform is [linux]; the same host without [--platform] yields a runner
    of the OsX class. [--platform windows] and [--platform linux] yield the
    class asked for on hosts that match. *)
Theorem create_build_runner_osx_flag_yields_linux_class :
  let darwin := Sample.host "darwin" ∅ 1 0 in
  let s := Sample.start ∅ in
  (exists self s',
     create_build_runner darwin (Sample.with_platform "osx" Sample.no_args) s
       = (Return self, s')
     /\ class self = LinuxBuildRunner /\ platform self = "linux")
  /\ (exists self s',
        create_build_runner darwin Sample.no_args s = (Return self, s')
        /\ class self = OsxBuildRunner /\ platform self = "osx")
  /\ (exists self s',
        create_build_runner (Sample.host "win32" ∅ 1 0)
          (Sample.with_platform "windows" Sample.no_args) s = (Return self, s')
        /\ class self = WindowsBuildRunner)
  /\ (exists self s',
        create_build_runner (Sample.host "linux" ∅ 1 0)
          (Sample.with_platform "linux" Sample.no_args) s = (Return self, s')
        /\ class self = LinuxBuildRunner).
Proof.
  cbv zeta.
  repeat split; eexists; eexists; (split; [vm_compute; reflexivity|]);
    repeat split.
Qed.

(** ** Validation of the architecture *)

(** C7: when the resolved architecture is none of [x86], [x64] and [arm],
    the constructor of every class raises [ValueError] with the message
    [Building <value> architecture for <platform> is not supported.], and
    [create_build_runner] returns no runner. *)
Theorem unsupported_arch_is_fatal h a s :
  let v := resolve_arch h a in
  v <> "x86" -> v <> "x64" -> v <> "arm" ->
  (WindowsBuildRunner_init h a s).1 =
    Raise (ValueError
      ("Building " +:+ v +:+ " architecture for windows is not supported."))
  /\ (LinuxBuildRunner_init h a s).1 =
    Raise (ValueError
      ("Building " +:+ v +:+ " architecture for linux is not supported."))
  /\ (OsxBuildRunner_init h a s).1 =
    Raise (ValueError
      ("Building " +:+ v +:+ " architecture for osx is not supported."))
  /\ (forall self s', create_build_runner h a s <> (Return self, s')).
Proof.
  intros v H86 H64 Harm.
  pose proof (supported_arch_false v H86 H64 Harm) as Hv. subst v.
  assert (Hbase : forall c, BuildRunnerBase_init h c a s =
            (Raise (ValueError (unsupported_arch_msg (resolve_arch h a) c)),
             init_failed h s)).
  { intros c. rewrite BuildRunnerBase_init_run, Hv. reflexivity. }
  repeat split.
  - unfold WindowsBuildRunner_init. rewrite (bind_raise _ _ _ _ _ (Hbase _)).
    reflexivity.
  - unfold LinuxBuildRunner_init. rewrite (bind_raise _ _ _ _ _ (Hbase _)).
    reflexivity.
  - unfold OsxBuildRunner_init. rewrite (bind_raise _ _ _ _ _ (Hbase _)).
    reflexivity.
  - intros self s' E.
    apply create_build_runner_fields in E as E'.
    destruct E' as (_ & _ & _ & _ & _ & Harch & _).
    destruct (create_build_runner_inv _ _ _ _ _ E) as [-> | [-> | ->]];
      clear Harch; revert E; unfold create_build_runner;
      repeat match goal with
      | |- match ?o with Some _ => _ | None => _ end _ = _ -> _ => destruct o
      | |- (if ?b then _ else _) _ = _ -> _ => destruct b
      end;
      try discriminate;
      unfold WindowsBuildRunner_init, LinuxBuildRunner_init,
        OsxBuildRunner_init;
      rewrite (bind_raise _ _ _ _ _ (Hbase _)); discriminate.
Qed.

Lemma unsupported_arch_is_fatal_witness :
  (LinuxBuildRunner_init (Sample.host "linux" ∅ 1 0)
     (Sample.with_arch "arm64" Sample.no_args) (Sample.start ∅)).1 =
  Raise (ValueError "Building arm64 architecture for linux is not supported.").
Proof.
  refine (proj1 (proj2 (unsupported_arch_is_fatal
            (Sample.host "linux" ∅ 1 0)
            (Sample.with_arch "arm64" Sample.no_args) (Sample.start ∅)
            _ _ _))); vm_compute; discriminate.
Defined.

Lemma resolve_arch_flag h a v :
  Args.arch a = Some v -> v <> "" -> resolve_arch h a = Py.lower v.
Proof. intros E Hv. unfold resolve_arch. rewrite E. apply if_truthy_some, Hv. Qed.

Lemma resolve_arch_env h a e :
  Args.arch a = None -> get_env_var h "BUILD_ARCHITECTURE" = Some e ->
  e <> "" -> resolve_arch h a = e.
Proof.
  intros E He Hne. unfold resolve_arch. rewrite E, He. cbn [Py.if_truthy].
  apply if_truthy_some, Hne.
Qed.

(** C9: a [--arch] value is lower-cased before the membership test, a
    [BUILD_ARCHITECTURE] value is tested as it is.  So [--arch X64] passes
    the test and [BUILD_ARCHITECTURE=X64] fails it, on every host; on a
    Linux host the first run gets a runner whose architecture is [x64], and
    the second raises [ValueError] naming [X64]. *)
Theorem arch_case_asymmetry :
  (forall h a v,
     Args.arch a = Some v -> v <> "" -> resolve_arch h a = Py.lower v)
  /\ (forall h a e,
        Args.arch a = None ->
        get_env_var h "BUILD_ARCHITECTURE" = Some e -> e <> "" ->
        resolve_arch h a = e)
  /\ (forall h a,
        Args.arch a = Some "X64" -> supported_arch (resolve_arch h a) = true)
  /\ (forall h a,
        Args.arch a = None ->
        get_env_var h "BUILD_ARCHITECTURE" = Some "X64" ->
        supported_arch (resolve_arch h a) = false)
  /\ (exists self s',
        create_build_runner (Sample.host "linux" ∅ 1 0)
          (Sample.with_arch "X64" Sample.no_args) (Sample.start ∅)
          = (Return self, s')
        /\ arch self = "x64")
  /\ (create_build_runner
        (Sample.host "linux" {[ "BUILD_ARCHITECTURE" := "X64" ]} 1 0)
        Sample.no_args (Sample.start ∅)).1
     = Raise (ValueError
         "Building X64 architecture for linux is not supported.").
Proof.
  split; [exact resolve_arch_flag|].
  split; [exact resolve_arch_env|].
  split.
  { intros h a E. rewrite (resolve_arch_flag h a "X64" E) by discriminate.
    reflexivity. }
  split.
  { intros h a E He. rewrite (resolve_arch_env h a "X64" E He) by discriminate.
    reflexivity. }
  split.
  - eexists; eexists. split; [vm_compute; reflexivity | reflexivity].
  - vm_compute. reflexivity.
Qed.

Lemma arch_case_asymmetry_witness :
  resolve_arch (Sample.host "linux" ∅ 1 0)
    (Sample.with_arch "ARM" Sample.no_args) = "arm"
  /\ resolve_arch (Sample.host "linux" {[ "BUILD_ARCHITECTURE" := "ARM" ]} 1 0)
       Sample.no_args = "ARM".
Proof.
  split.
  - refine (proj1 arch_case_asymmetry _ _ "ARM" _ _);
      [reflexivity | discriminate].
  - refine (proj1 (proj2 arch_case_asymmetry) _ _ "ARM" _ _ _);
      [reflexivity | vm_compute; reflexivity | discriminate].
Defined.

(** ** Precedence of flags, environment variables and defaults *)

(** The precedence the specification states: the flag's value if the flag
    is given, else the variable's value if the variable is set, else the
    default; [of_flag] and [of_env] say how each value is normalised. *)
Definition precedence (of_flag of_env : string -> string)
    (flag env : option string) (dflt : string) : string :=
  match flag with
  | Some v => of_flag v
  | None => match env with Some e => of_env e | None => dflt end
  end.

Lemma if_truthy_precedence (of_flag of_env : string -> string)
    (flag env : option string) (dflt : string) :
  flag <> Some "" -> (flag = None -> env <> Some "") ->
  Py.if_truthy flag of_flag (Py.if_truthy env of_env dflt)
  = precedence of_flag of_env flag env dflt.
Proof.
  intros Hf He. destruct flag as [v|]; cbn [precedence].
  - apply if_truthy_some. congruence.
  - cbn [Py.if_truthy]. destruct env as [e|]; [|reflexivity].
    apply if_truthy_some. intros ->. exact (He eq_refl eq_refl).
Qed.

(** C2 fails on Windows: with no [--compiler], the compiler of a Windows
    runner is [msvc] both when [BUILD_COMPILER] is [clang] and when it is
    unset, not [clang] and not [gnu]. *)
Lemma precedence_fails_for_windows_compiler :
  (exists self s',
     create_build_runner
       (Sample.host "win32" {[ "BUILD_COMPILER" := "clang" ]} 1 0)
       Sample.no_args (Sample.start ∅) = (Return self, s')
     /\ get_env_var (Sample.host "win32" {[ "BUILD_COMPILER" := "clang" ]} 1 0)
          "BUILD_COMPILER" = Some "clang"
     /\ compiler self = "msvc" /\ compiler self <> "clang")
  /\ (exists self s',
        create_build_runner (Sample.host "win32" ∅ 1 0)
          Sample.no_args (Sample.start ∅) = (Return self, s')
        /\ get_env_var (Sample.host "win32" ∅ 1 0) "BUILD_COMPILER" = None
        /\ compiler self = "msvc" /\ compiler self <> "gnu").
Proof.
  split; eexists; eexists; (split; [vm_compute; reflexivity|]);
    (split; [vm_compute; reflexivity|]); split;
    [reflexivity | discriminate | reflexivity | discriminate].
Qed.

(** C2, amended: for every runner [create_build_runner] returns, the
    architecture, the build mode and (for the Linux and OsX classes) the
    compiler follow the precedence flag, variable, default as long as no
    empty string is given: a flag's value is lower-cased, the values of
    [BUILD_CONFIGURATION] and [BUILD_COMPILER] are lower-cased, the value of
    [BUILD_ARCHITECTURE] is taken as it is; the defaults are [x64], [debug]
    and [gnu].  The compiler of a Windows runner is [msvc].  The
    dependency-manager root is the flag's value if [--vcpkgdir] is given,
    else the value of [BUILD_VCPKGDIR] if set, else absent. *)
Theorem precedence_law h a s self s' :
  create_build_runner h a s = (Return self, s') ->
  (Args.arch a <> Some "" ->
   (Args.arch a = None -> get_env_var h "BUILD_ARCHITECTURE" <> Some "") ->
   arch self =
     precedence Py.lower id (Args.arch a)
       (get_env_var h "BUILD_ARCHITECTURE") "x64")
  /\ (Args.config a <> Some "" ->
      (Args.config a = None -> get_env_var h "BUILD_CONFIGURATION" <> Some "") ->
      config self =
        precedence Py.lower Py.lower (Args.config a)
          (get_env_var h "BUILD_CONFIGURATION") "debug")
  /\ (class self <> WindowsBuildRunner ->
      Args.compiler a <> Some "" ->
      (Args.compiler a = None -> get_env_var h "BUILD_COMPILER" <> Some "") ->
      compiler self =
        precedence Py.lower Py.lower (Args.compiler a)
          (get_env_var h "BUILD_COMPILER") "gnu")
  /\ (class self = WindowsBuildRunner -> compiler self = "msvc")
  /\ vcpkg_root_path self =
       match Args.vcpkgdir a with
       | Some v => Some v
       | None => get_env_var h "BUILD_VCPKGDIR"
       end.
Proof.
  intros E.
  destruct (create_build_runner_fields _ _ _ _ _ E)
    as (_ & Hvcpkg & _ & _ & _ & Harch & Hconfig).
  split; [|split; [|split; [|split]]].
  - intros Hf He. rewrite Harch. apply if_truthy_precedence; assumption.
  - intros Hf He. rewrite Hconfig. apply if_truthy_precedence; assumption.
  - intros Hc Hf He.
    destruct (create_build_runner_inv _ _ _ _ _ E) as [-> | [-> | ->]];
      [contradiction (Hc eq_refl) | |];
      change (resolve_compiler h a = precedence Py.lower Py.lower
                (Args.compiler a) (get_env_var h "BUILD_COMPILER") "gnu");
      apply if_truthy_precedence; assumption.
  - intros Hc.
    destruct (create_build_runner_inv _ _ _ _ _ E) as [-> | [-> | ->]];
      [reflexivity | discriminate Hc | discriminate Hc].
  - rewrite Hvcpkg. unfold resolve_vcpkg_root_path.
    destruct (Args.vcpkgdir a); reflexivity.
Qed.

Lemma precedence_law_witness :
  arch (unix_runner
          (Sample.host "linux"
             {[ "BUILD_ARCHITECTURE" := "arm";
                "BUILD_CONFIGURATION" := "Release" ]} 1 0)
          LinuxBuildRunner
          (Sample.with_arch "X86" (Sample.with_vcpkgdir "/vcpkg" Sample.no_args)))
  = "x86"
  /\ config (unix_runner
               (Sample.host "linux"
                  {[ "BUILD_ARCHITECTURE" := "arm";
                     "BUILD_CONFIGURATION" := "Release" ]} 1 0)
               LinuxBuildRunner
               (Sample.with_arch "X86"
                  (Sample.with_vcpkgdir "/vcpkg" Sample.no_args)))
     = "release"
  /\ compiler (unix_runner
                 (Sample.host "linux"
                    {[ "BUILD_ARCHITECTURE" := "arm";
                       "BUILD_CONFIGURATION" := "Release" ]} 1 0)
                 LinuxBuildRunner
                 (Sample.with_arch "X86"
                    (Sample.with_vcpkgdir "/vcpkg" Sample.no_args)))
     = "gnu".
Proof.
  assert (E : create_build_runner
                (Sample.host "linux"
                   {[ "BUILD_ARCHITECTURE" := "arm";
                      "BUILD_CONFIGURATION" := "Release" ]} 1 0)
                (Sample.with_arch "X86"
                   (Sample.with_vcpkgdir "/vcpkg" Sample.no_args))
                (Sample.start ∅)
              = (Return
                   (unix_runner
                      (Sample.host "linux"
                         {[ "BUILD_ARCHITECTURE" := "arm";
                            "BUILD_CONFIGURATION" := "Release" ]} 1 0)
                      LinuxBuildRunner
                      (Sample.with_arch "X86"
                         (Sample.with_vcpkgdir "/vcpkg" Sample.no_args))),
                 init_done
                   (Sample.host "linux"
                      {[ "BUILD_ARCHITECTURE" := "arm";
                         "BUILD_CONFIGURATION" := "Release" ]} 1 0)
                   (Sample.start ∅)))
    by (vm_compute; reflexivity).
  destruct (precedence_law _ _ _ _ _ E) as (Harch & Hconfig & Hcompiler & _).
  split; [|split].
  - rewrite Harch; [reflexivity | discriminate | discriminate].
  - rewrite Hconfig; [vm_compute; reflexivity | discriminate |].
    intros _. vm_compute. discriminate.
  - rewrite Hcompiler; [vm_compute; reflexivity | discriminate | discriminate |].
    intros _. vm_compute. discriminate.
Defined.

(** ** The phases, run from an arbitrary state *)

Lemma calls_app m (e1 e2 : list event) :
  calls m (e1 ++ e2) = (calls m e1 + calls m e2)%nat.
Proof. unfold calls. rewrite List.filter_app, List.length_app. reflexivity. Qed.

Lemma state_eq (s1 s2 : state) :
  timeToClean s1 = timeToClean s2 -> timeToGenerate s1 = timeToGenerate s2 ->
  timeToBuild s1 = timeToBuild s2 -> cwd s1 = cwd s2 ->
  exists_ s1 = exists_ s2 -> timer_calls s1 = timer_calls s2 ->
  trace s1 = trace s2 -> s1 = s2.
Proof. destruct s1, s2; cbn; intros; subst; reflexivity. Qed.

(** Reduces the projections of updated states. *)
Ltac sred :=
  cbn [timeToClean timeToGenerate timeToBuild cwd exists_ timer_calls trace
       log logs tick set_timeToClean set_timeToGenerate set_timeToBuild
       set_cwd set_exists fst snd].

(** Proves two states equal field by field, the traces up to
    associativity. *)
Ltac state_eq :=
  apply state_eq; sred; rewrite <- ?app_assoc; reflexivity.

(** The lines [print_start_build_msg] prints. *)
Definition banner (h : Host) (self : BuildRunner) : list event :=
  [ Print "Starting Build";
    Print ("Target OS: " +:+ Py.capitalize (platform self));
    Print ("Flavor: " +:+ flavor self);
    Print ("Arch: " +:+ arch self);
    Print ("Config: " +:+ config self);
    Print ("CMake Target: " +:+ Py.str_opt (cmake_target self));
    Print ("CMake Generator: " +:+ Py.str_opt (generator self));
    Print ("Compiler: " +:+ compiler self);
    Print ("Clean: " +:+ Py.str_bool (is_clean_build self));
    Print ("Source Path: " +:+ source_path self);
    Print ("Build Path: " +:+ build_path h self) ].

Lemma print_start_build_msg_run h self s :
  print_start_build_msg h self s = (Return tt, logs (banner h self) s).
Proof.
  unfold print_start_build_msg. mred. f_equal. state_eq.
Qed.

(** The events of [clean], by whether the build directory was found. *)
Definition clean_events (h : Host) (self : BuildRunner) (found : bool)
    : list event :=
  [Call m_clean; Print ("Purging: " +:+ build_path h self)]
  ++ (if found then [Rmtree (build_path h self)] else []).

(** The state [clean] leaves. *)
Definition cleaned (h : Host) (self : BuildRunner) (s : state) : state :=
  let found := bool_decide (build_path h self ∈ exists_ s) in
  {| timeToClean :=
       default_timer h (S (timer_calls s)) - default_timer h (timer_calls s);
     timeToGenerate := timeToGenerate s;
     timeToBuild := timeToBuild s;
     cwd := cwd s;
     exists_ :=
       if found then exists_ s ∖ {[build_path h self]} else exists_ s;
     timer_calls := S (S (timer_calls s));
     trace := trace s ++ clean_events h self found |}.

Lemma clean_run h self s : clean h self s = (Return tt, cleaned h self s).
Proof.
  unfold clean, cleaned, clean_events, path_exists, rmtree, timer. mred. sred.
  destruct (bool_decide (build_path h self ∈ exists_ s)); mred; sred;
    f_equal; state_eq.
Qed.

(** The executable [tests] would start, when the host is Windows or
    Linux. *)
Definition test_exe (h : Host) (self : BuildRunner) : option string :=
  let directory := join3 h (gettempdir h) (build_path h self) "test" in
  if is_running_on_windows h
  then Some (os_path_join h directory "docs_tests.exe")
  else if is_running_on_linux h
  then Some (os_path_join h directory "docs_tests")
  else None.

Lemma tests_run h self s :
  tests h self s =
  match test_exe h self with
  | None =>
      (Raise (NameError "name 'build' is not defined"), logs [Call m_tests] s)
  | Some exe =>
      match child_exit h [exe] with
      | None => (Raise (OSError [exe]), logs [Call m_tests] s)
      | Some _ => (Return tt, logs [Call m_tests; Spawn [exe] false] s)
      end
  end.
Proof.
  unfold tests, test_exe, call. mred.
  destruct (is_running_on_windows h); [|destruct (is_running_on_linux h)];
    mred; try reflexivity;
    (destruct (child_exit h _); mred; f_equal; state_eq).
Qed.

(** The events of [run_command], by what became of the child. *)
Definition running (cmd : list string) : event :=
  Print ("Running command " +:+ Py.join " " cmd +:+ ".").

Definition rethrowing (cmd : list string) : event :=
  Print ("Running " +:+ Py.join " " cmd +:+ " failed. Rethrowing exception").

Lemma run_command_run h cmd s :
  run_command h cmd s =
  match child_exit h cmd with
  | None => (Raise (OSError cmd), logs [running cmd] s)
  | Some code =>
      if code =? 0
      then (Return tt, logs [running cmd; Spawn cmd false] s)
      else (Raise (CalledProcessError code cmd),
            logs [running cmd; Spawn cmd false; rethrowing cmd] s)
  end.
Proof.
  unfold run_command, try_reraise, _check_call, check_call, VERBOSE,
    running, rethrowing.
  mred.
  destruct (child_exit h cmd) as [code|]; mred; [|reflexivity].
  destruct (code =? 0); mred; cbn [is_CalledProcessError];
    f_equal; state_eq.
Qed.

Lemma create_generate_command_some h self root :
  vcpkg_root_path self = Some root ->
  exists cmd, forall s, create_generate_command h self s = (Return cmd, s).
Proof.
  intros Hroot.
  unfold create_generate_command, generate_options, unix_generate_options,
    get_vcpkg_toolchain_file_path.
  rewrite Hroot. mred.
  destruct (class self); mred;
    try (destruct (Py.startswith (arch self) "arm");
         [destruct (get_env_var h "ZLIB_ROOT_DIR")|]);
    eexists; intros ?; reflexivity.
Qed.

(** The state [generate] has reached when it starts the child. *)
Definition generating (h : Host) (self : BuildRunner) (cmd : list string)
    (s : state) : state :=
  {| timeToClean := timeToClean s;
     timeToGenerate := timeToGenerate s;
     timeToBuild := timeToBuild s;
     cwd := build_path h self;
     exists_ := {[build_path h self]} ∪ exists_ s;
     timer_calls := S (timer_calls s);
     trace := trace s ++ [Call m_generate; Makedirs (build_path h self);
                          Chdir (build_path h self); running cmd] |}.

(** The state it leaves when the child exits with status 0. *)
Definition generated (h : Host) (self : BuildRunner) (cmd : list string)
    (s : state) : state :=
  {| timeToClean := timeToClean s;
     timeToGenerate :=
       default_timer h (S (timer_calls s)) - default_timer h (timer_calls s);
     timeToBuild := timeToBuild s;
     cwd := cwd s;
     exists_ := {[build_path h self]} ∪ exists_ s;
     timer_calls := S (S (timer_calls s));
     trace := trace s ++ [Call m_generate; Makedirs (build_path h self);
                          Chdir (build_path h self); running cmd;
                          Spawn cmd false; Chdir (cwd s)] |}.

Lemma generate_run_none h self s :
  vcpkg_root_path self = None ->
  generate h self s =
  (Raise (ValueError "vcpkg root directory was not specified"),
   logs [Call m_generate] s).
Proof. intros Hroot. unfold generate. rewrite Hroot. reflexivity. Qed.

Lemma generate_run_some h self root :
  vcpkg_root_path self = Some root ->
  exists cmd, forall s,
    generate h self s =
    match child_exit h cmd with
    | None => (Raise (OSError cmd), generating h self cmd s)
    | Some code =>
        if code =? 0 then (Return tt, generated h self cmd s)
        else (Raise (CalledProcessError code cmd),
              logs [Spawn cmd false; rethrowing cmd] (generating h self cmd s))
    end.
Proof.
  intros Hroot.
  destruct (create_generate_command_some h self root Hroot) as [cmd Hcmd].
  exists cmd. intros s. unfold generate. rewrite Hroot.
  unfold makedirs, chdir, timer. mred. rewrite Hcmd. mred. sred.
  rewrite run_command_run.
  destruct (child_exit h cmd) as [code|]; [destruct (code =? 0)|];
    mred; sred; f_equal; unfold generating, generated; state_eq.
Qed.

(** [generate] either returns with its elapsed time recorded and the
    working directory restored, the last event being the [chdir] back, or
    raises; either way it does not enter [build]. *)
Lemma generate_spec h self s :
  match generate h self s with
  | (Return _, s') =>
      cwd s' = cwd s
      /\ timeToGenerate s' =
         default_timer h (S (timer_calls s)) - default_timer h (timer_calls s)
      /\ exists evs,
           trace s' = trace s ++ evs ++ [Chdir (cwd s)]
           /\ calls m_build evs = 0%nat
  | (Raise _, s') =>
      exists evs, trace s' = trace s ++ evs /\ calls m_build evs = 0%nat
  end.
Proof.
  destruct (vcpkg_root_path self) as [root|] eqn:Hroot.
  - destruct (generate_run_some h self root Hroot) as [cmd ->].
    destruct (child_exit h cmd) as [code|]; [destruct (code =? 0)|];
      unfold generating, generated; sred.
    + split; [reflexivity|]. split; [reflexivity|].
      exists [Call m_generate; Makedirs (build_path h self);
              Chdir (build_path h self); running cmd; Spawn cmd false].
      split; reflexivity.
    + eexists. split; [rewrite <- app_assoc; reflexivity | reflexivity].
    + eexists. split; reflexivity.
  - rewrite generate_run_none by assumption.
    eexists. split; reflexivity.
Qed.

(** ** The orchestrator *)

(** The build group: the first statement of [run], guarded by
    [self.cmake_target != None]. *)
Definition build_group (h : Host) (self : BuildRunner) : M unit :=
  match cmake_target self with
  | Some _ =>
      print_start_build_msg h self;;
      (if is_clean_build self then clean h self else mret tt);;
      Py.if_truthy (operation_type self)
        (fun op =>
           if Py.eqb (Py.lower op) "generate" then generate h self
           else if Py.eqb (Py.lower op) "build" then build h self
           else if Py.eqb (Py.lower op) "cleanonly" then
             (if negb (is_clean_build self) then clean h self else mret tt)
           else raise (ValueError ("Invalid operation specified: " +:+ op)))
        (generate h self;; build h self);;
      print_end_build_msg;;
      print_times
  | None => mret tt
  end.

(** [run] is the build group followed by the test phase, if asked for. *)
Lemma run_build_group h self :
  run h self =
  (build_group h self;; if run_tests self then tests h self else mret tt).
Proof. reflexivity. Qed.

Lemma run_after_build_group h self s s' :
  build_group h self s = (Return tt, s') ->
  run h self s = if run_tests self then tests h self s' else (Return tt, s').
Proof.
  intros E. rewrite run_build_group, (bind_return _ _ _ _ _ E).
  destruct (run_tests self); reflexivity.
Qed.

Lemma run_build_group_raises h self s e s' :
  build_group h self s = (Raise e, s') -> run h self s = (Raise e, s').
Proof. intros E. rewrite run_build_group. exact (bind_raise _ _ _ _ _ E). Qed.

(** The state before the operation is looked at: the banner printed and,
    with [--clean], the clean phase run. *)
Definition prepared (h : Host) (self : BuildRunner) (s : state) : state :=
  if is_clean_build self then cleaned h self (logs (banner h self) s)
  else logs (banner h self) s.

Lemma prepare_run h self s :
  (print_start_build_msg h self;;
   if is_clean_build self then clean h self else mret tt) s
  = (Return tt, prepared h self s).
Proof.
  rewrite (bind_return _ _ _ _ _ (print_start_build_msg_run h self s)).
  unfold prepared. destruct (is_clean_build self);
    [apply clean_run | reflexivity].
Qed.

(** The build group, once the banner and the optional clean are done. *)
Lemma build_group_prepared h self s t :
  cmake_target self = Some t ->
  build_group h self s =
  (Py.if_truthy (operation_type self)
     (fun op =>
        if Py.eqb (Py.lower op) "generate" then generate h self
        else if Py.eqb (Py.lower op) "build" then build h self
        else if Py.eqb (Py.lower op) "cleanonly" then
          (if negb (is_clean_build self) then clean h self else mret tt)
        else raise (ValueError ("Invalid operation specified: " +:+ op)))
     (generate h self;; build h self);;
   print_end_build_msg;;
   print_times) (prepared h self s).
Proof.
  intros Ht. unfold build_group. rewrite Ht.
  rewrite (bind_return _ _ _ _ _ (print_start_build_msg_run h self s)).
  unfold prepared. destruct (is_clean_build self) eqn:Hclean.
  - rewrite (bind_return _ _ _ _ _ (clean_run h self _)). reflexivity.
  - reflexivity.
Qed.

Lemma prepared_frame h self s :
  cwd (prepared h self s) = cwd s
  /\ exists_ (prepared h self s) ⊆ exists_ s
  /\ exists evs,
       trace (prepared h self s) = trace s ++ evs
       /\ List.existsb is_spawn evs = false
       /\ List.existsb moves_or_creates evs = false
       /\ calls m_build evs = 0%nat
       /\ calls m_clean evs = (if is_clean_build self then 1 else 0)%nat.
Proof.
  unfold prepared, cleaned.
  destruct (is_clean_build self); sred.
  - split; [reflexivity|]. split.
    { destruct (bool_decide _); [apply subseteq_difference_l|]; done. }
    eexists. split; [rewrite <- app_assoc; reflexivity|].
    destruct (bool_decide _); repeat split.
  - split; [reflexivity|]. split; [done|].
    eexists. split; [reflexivity|]. repeat split.
Qed.

(** *** The test phase *)

(** C10: on a host that is neither Windows nor Linux, [tests] raises
    [NameError] for the undefined name [build] right after it is entered:
    the only event it adds is its own entry, so no test executable is
    started.  So does [run], with [--runtests], once the build group has
    returned. *)
Theorem tests_raises_off_windows_and_linux h self s :
  is_running_on_windows h = false -> is_running_on_linux h = false ->
  tests h self s =
    (Raise (NameError "name 'build' is not defined"), logs [Call m_tests] s)
  /\ (forall s1,
        run_tests self = true ->
        build_group h self s = (Return tt, s1) ->
        run h self s =
          (Raise (NameError "name 'build' is not defined"),
           logs [Call m_tests] s1)).
Proof.
  intros Hw Hl.
  assert (Ht : forall s0, tests h self s0 =
            (Raise (NameError "name 'build' is not defined"),
             logs [Call m_tests] s0)).
  { intros s0. rewrite tests_run. unfold test_exe. rewrite Hw, Hl.
    reflexivity. }
  split; [apply Ht|].
  intros s1 Hrun E. rewrite (run_after_build_group _ _ _ _ E), Hrun. apply Ht.
Qed.

Lemma tests_raises_off_windows_and_linux_witness :
  main (Sample.host "darwin" ∅ 1 0) (Sample.with_runtests Sample.no_args)
    (Sample.start ∅)
  = (Raise (NameError "name 'build' is not defined"),
     logs [Call m_tests]
       (init_done (Sample.host "darwin" ∅ 1 0) (Sample.start ∅))).
Proof.
  unfold main.
  rewrite (bind_return _ _ (Sample.start ∅)
             (unix_runner (Sample.host "darwin" ∅ 1 0) OsxBuildRunner
                (Sample.with_runtests Sample.no_args))
             (init_done (Sample.host "darwin" ∅ 1 0) (Sample.start ∅)))
    by (vm_compute; reflexivity).
  refine (proj2 (tests_raises_off_windows_and_linux
                   (Sample.host "darwin" ∅ 1 0) _ _ _ _) _ _ _);
    reflexivity.
Defined.

(** C4: with [--runtests], no [--cmaketarget] and no [--operation], every
    runner [create_build_runner] returns has no cmake target; the build
    group then returns at once, leaving the state as it is (no banner, no
    clean, generate or build, no completion message, no timing summary), and
    the rest of the run is the test phase. *)
Theorem runtests_alone_skips_build_group h a s self s1 :
  Args.runtests a = true -> Args.cmaketarget a = None ->
  Args.operation a = None ->
  create_build_runner h a s = (Return self, s1) ->
  cmake_target self = None
  /\ build_group h self s1 = (Return tt, s1)
  /\ main h a s = tests h self s1
  /\ exists evs, trace (tests h self s1).2 = trace s1 ++ Call m_tests :: evs.
Proof.
  intros Hrun Htarget _ E.
  destruct (create_build_runner_fields _ _ _ _ _ E)
    as (_ & _ & Hcmake & _ & Htests & _).
  assert (Hnone : cmake_target self = None).
  { rewrite Hcmake. unfold resolve_cmake_target. rewrite Htarget, Hrun.
    reflexivity. }
  assert (Hgroup : build_group h self s1 = (Return tt, s1)).
  { unfold build_group. rewrite Hnone. reflexivity. }
  split; [exact Hnone|]. split; [exact Hgroup|]. split.
  - unfold main. rewrite (bind_return _ _ _ _ _ E).
    rewrite (run_after_build_group _ _ _ _ Hgroup), Htests, Hrun.
    reflexivity.
  - rewrite tests_run.
    destruct (test_exe h self) as [exe|];
      [destruct (child_exit h [exe])|]; eexists; reflexivity.
Qed.

Lemma runtests_alone_skips_build_group_witness :
  main (Sample.host "linux" ∅ 1 0) (Sample.with_runtests Sample.no_args)
    (Sample.start ∅)
  = (Return tt,
     logs [Call m_tests;
           Spawn ["/tmp/build_do_proxywrapper/linux-x64-gnu-debug/test/docs_tests"]
             false]
       (init_done (Sample.host "linux" ∅ 1 0) (Sample.start ∅))).
Proof.
  assert (E : create_build_runner (Sample.host "linux" ∅ 1 0)
                (Sample.with_runtests Sample.no_args) (Sample.start ∅)
              = (Return (unix_runner (Sample.host "linux" ∅ 1 0)
                           LinuxBuildRunner
                           (Sample.with_runtests Sample.no_args)),
                 init_done (Sample.host "linux" ∅ 1 0) (Sample.start ∅)))
    by (vm_compute; reflexivity).
  rewrite (proj1 (proj2 (proj2 (runtests_alone_skips_build_group
             (Sample.host "linux" ∅ 1 0)
             (Sample.with_runtests Sample.no_args) (Sample.start ∅) _ _
             eq_refl eq_refl eq_refl E)))).
  vm_compute. reflexivity.
Defined.

(** *** The generate phase without a dependency-manager root *)

(** The run reaches the generate phase: a cmake target is resolved, so the
    build group runs, and the operation is absent (or empty) or is
    [generate] in any letter case. *)
Definition requires_generate (self : BuildRunner) : bool :=
  match cmake_target self with
  | None => false
  | Some _ =>
      Py.if_truthy (operation_type self)
        (fun op => Py.eqb (Py.lower op) "generate") true
  end.

Lemma constructed_frame h s s' :
  constructed h s s' ->
  cwd s' = cwd s /\ exists_ s' = exists_ s
  /\ exists evs,
       trace s' = trace s ++ evs
       /\ List.existsb is_spawn evs = false
       /\ List.existsb moves_or_creates evs = false.
Proof.
  intros [-> | ->]; unfold init_done, init_failed; sred;
    (split; [reflexivity|]); (split; [reflexivity|]);
    eexists; (split; [rewrite <- ?app_assoc; reflexivity|]); split; reflexivity.
Qed.

Lemma build_group_missing_root h self s :
  requires_generate self = true -> vcpkg_root_path self = None ->
  build_group h self s =
  (Raise (ValueError "vcpkg root directory was not specified"),
   logs [Call m_generate] (prepared h self s)).
Proof.
  unfold requires_generate. intros Hreq Hroot.
  destruct (cmake_target self) as [t|] eqn:Ht; [|discriminate].
  rewrite (build_group_prepared h self s t Ht).
  pose proof (generate_run_none h self (prepared h self s) Hroot) as Hgen.
  unfold Py.if_truthy in *.
  destruct (operation_type self) as [op|];
    [destruct (Py.truthy op); [rewrite Hreq|]|];
    rewrite bind_run; [|rewrite bind_run|rewrite bind_run];
    rewrite Hgen; reflexivity.
Qed.

(** C3: when neither [--vcpkgdir] nor [BUILD_VCPKGDIR] is given and the run
    of the runner that was constructed reaches the generate phase, [main]
    raises [ValueError] with the message [vcpkg root directory was not
    specified]; among the events up to there, none starts a child process,
    none changes the working directory and none creates a directory; the
    working directory is the one the process started in, and no directory
    exists that did not exist before. *)
Theorem missing_vcpkg_root_is_fatal h a s self s1 :
  Args.vcpkgdir a = None -> get_env_var h "BUILD_VCPKGDIR" = None ->
  create_build_runner h a s = (Return self, s1) ->
  requires_generate self = true ->
  exists s' evs,
    main h a s =
      (Raise (ValueError "vcpkg root directory was not specified"), s')
    /\ trace s' = trace s ++ evs
    /\ List.existsb is_spawn evs = false
    /\ List.existsb moves_or_creates evs = false
    /\ cwd s' = cwd s
    /\ exists_ s' ⊆ exists_ s.
Proof.
  intros Hflag Henv E Hreq.
  destruct (create_build_runner_fields _ _ _ _ _ E)
    as (_ & Hvcpkg & _).
  assert (Hroot : vcpkg_root_path self = None).
  { rewrite Hvcpkg. unfold resolve_vcpkg_root_path. rewrite Hflag. exact Henv. }
  destruct (constructed_frame h s s1 (proj2 (create_build_runner_inv' _ _ _ _ _ E)))
    as (Hcwd1 & Hex1 & evs1 & Htr1 & Hsp1 & Hmv1).
  destruct (prepared_frame h self s1)
    as (Hcwd2 & Hex2 & evs2 & Htr2 & Hsp2 & Hmv2 & _).
  exists (logs [Call m_generate] (prepared h self s1)),
         (evs1 ++ evs2 ++ [Call m_generate]).
  split.
  { unfold main. rewrite (bind_return _ _ _ _ _ E).
    apply run_build_group_raises, build_group_missing_root; assumption. }
  sred. rewrite Htr2, Htr1, !List.existsb_app, Hsp1, Hsp2, Hmv1, Hmv2.
  rewrite <- !app_assoc.
  repeat split; [congruence | rewrite <- Hex1; exact Hex2].
Qed.

Lemma missing_vcpkg_root_is_fatal_witness :
  (main (Sample.host "linux" ∅ 1 0) (Sample.with_clean Sample.no_args)
     (Sample.start ∅)).1
  = Raise (ValueError "vcpkg root directory was not specified").
Proof.
  assert (E : create_build_runner (Sample.host "linux" ∅ 1 0)
                (Sample.with_clean Sample.no_args) (Sample.start ∅)
              = (Return (unix_runner (Sample.host "linux" ∅ 1 0)
                           LinuxBuildRunner
                           (Sample.with_clean Sample.no_args)),
                 init_done (Sample.host "linux" ∅ 1 0) (Sample.start ∅)))
    by (vm_compute; reflexivity).
  assert (Henv : get_env_var (Sample.host "linux" ∅ 1 0) "BUILD_VCPKGDIR"
                  = None)
    by (vm_compute; reflexivity).
  destruct (missing_vcpkg_root_is_fatal
              (Sample.host "linux" ∅ 1 0)
              (Sample.with_clean Sample.no_args) (Sample.start ∅) _ _
              eq_refl Henv E eq_refl) as (s' & evs & -> & _).
  reflexivity.
Defined.

(** *** The clean phase *)

Lemma bind_assoc {A B C : Type} (m : M A) (f : A -> M B) (g : B -> M C) s :
  ((m ≫= f) ≫= g) s = (m ≫= fun a => f a ≫= g) s.
Proof.
  rewrite !bind_run. destruct (m s) as [[a|e] s']; reflexivity.
Qed.

(** The lines printed when the build group completes. *)
Definition summary (s : state) : list event :=
  [ Print "Build Complete";
    PrintTime "Time to clean: " (timeToClean s);
    PrintTime "Time to generate: " (timeToGenerate s);
    PrintTime "Time to build: " (timeToBuild s) ].

Lemma summary_run s :
  (print_end_build_msg;; print_times) s = (Return tt, logs (summary s) s).
Proof.
  unfold print_end_build_msg, print_times, summary. mred. sred.
  f_equal. state_eq.
Qed.

Lemma lower_nonempty (op v : string) : Py.lower op = v -> v <> "" -> op <> "".
Proof. intros <- Hv ->. apply Hv. reflexivity. Qed.

(** With operation [cleanonly] the build group runs [clean] once, from the
    state the banner leaves, and then prints the summary. *)
Lemma build_group_cleanonly h self s t op :
  cmake_target self = Some t -> operation_type self = Some op ->
  Py.lower op = "cleanonly" ->
  build_group h self s =
  (Return tt,
   logs (summary (cleaned h self (logs (banner h self) s)))
     (cleaned h self (logs (banner h self) s))).
Proof.
  intros Ht Hop Hlow.
  rewrite (build_group_prepared h self s t Ht), Hop.
  rewrite if_truthy_some by (eapply lower_nonempty; [exact Hlow | discriminate]).
  rewrite Hlow.
  change (Py.eqb "cleanonly" "generate") with false.
  change (Py.eqb "cleanonly" "build") with false.
  change (Py.eqb "cleanonly" "cleanonly") with true.
  cbv beta iota. unfold prepared.
  destruct (is_clean_build self); cbn [negb].
  - rewrite bind_run. mred. apply summary_run.
  - rewrite (bind_return _ _ _ _ _ (clean_run h self _)). apply summary_run.
Qed.

Lemma tests_frame h self s :
  exists evs,
    trace (tests h self s).2 = trace s ++ evs /\ calls m_clean evs = 0%nat.
Proof.
  rewrite tests_run.
  destruct (test_exe h self) as [exe|];
    [destruct (child_exit h [exe])|]; eexists; split; reflexivity.
Qed.

(** C5 fails as stated: on a host whose timer advances by 3 ticks per
    reading, [--operation cleanonly] with no build directory returns
    normally and deletes nothing, but the recorded clean time, 0 before the
    run, is 3 after it. *)
Lemma cleanonly_on_missing_dir_records_elapsed_time :
  (build_path (Sample.host "linux" ∅ 3 0)
     (unix_runner (Sample.host "linux" ∅ 3 0) LinuxBuildRunner
        (Sample.with_operation "cleanonly" Sample.no_args))
     ∉ exists_ (Sample.start ∅))
  /\ timeToClean (Sample.start ∅) = 0
  /\ exists s',
       main (Sample.host "linux" ∅ 3 0)
         (Sample.with_operation "cleanonly" Sample.no_args) (Sample.start ∅)
       = (Return tt, s')
       /\ List.existsb is_rmtree (trace s') = false
       /\ timeToClean s' = 3
       /\ timeToClean s' <> 0.
Proof.
  split; [apply not_elem_of_empty|]. split; [reflexivity|].
  eexists. split; [vm_compute; reflexivity|].
  split; [reflexivity|]. split; [reflexivity | discriminate].
Qed.

(** C5, amended: with a resolved cmake target, operation [cleanonly] and no
    build directory, the build group returns normally, whether or not
    [--clean] is given; the events it adds contain one entry of [clean] and
    no deletion, the set of existing directories is unchanged, and the
    recorded clean time is the difference of the two timer readings [clean]
    takes around its existence test.  The run then goes on to the test
    phase if [--runtests] is given and returns otherwise. *)
Theorem cleanonly_on_missing_build_dir h self s t op :
  cmake_target self = Some t -> operation_type self = Some op ->
  Py.lower op = "cleanonly" ->
  build_path h self ∉ exists_ s ->
  exists s' evs,
    build_group h self s = (Return tt, s')
    /\ run h self s =
       (if run_tests self then tests h self s' else (Return tt, s'))
    /\ trace s' = trace s ++ evs
    /\ List.existsb is_rmtree evs = false
    /\ calls m_clean evs = 1%nat
    /\ exists_ s' = exists_ s
    /\ timeToClean s' =
       default_timer h (S (timer_calls s)) - default_timer h (timer_calls s).
Proof.
  intros Ht Hop Hlow Hmissing.
  pose proof (build_group_cleanonly h self s t op Ht Hop Hlow) as Hgroup.
  eexists. eexists. split; [exact Hgroup|].
  split; [exact (run_after_build_group _ _ _ _ Hgroup)|].
  unfold cleaned. sred. rewrite bool_decide_eq_false_2 by exact Hmissing.
  split; [rewrite <- !app_assoc; reflexivity|].
  repeat split.
Qed.

Lemma cleanonly_on_missing_build_dir_witness :
  exists s',
    run (Sample.host "linux" ∅ 3 0)
      (unix_runner (Sample.host "linux" ∅ 3 0) LinuxBuildRunner
         (Sample.with_operation "cleanonly" Sample.no_args))
      (Sample.start ∅) = (Return tt, s')
    /\ timeToClean s' = 3.
Proof.
  destruct (cleanonly_on_missing_build_dir
              (Sample.host "linux" ∅ 3 0)
              (unix_runner (Sample.host "linux" ∅ 3 0) LinuxBuildRunner
                 (Sample.with_operation "cleanonly" Sample.no_args))
              (Sample.start ∅) "all" "cleanonly"
              eq_refl eq_refl eq_refl (not_elem_of_empty _))
    as (s' & evs & _ & Hrun & _ & _ & _ & _ & Htime).
  exists s'. split; [exact Hrun | exact Htime].
Defined.

(** C6: with a resolved cmake target and operation [cleanonly], in any
    letter case, the build group returns normally and the events of the
    whole run contain exactly one entry of [clean], with and without
    [--clean]. *)
Theorem cleanonly_cleans_once h self s t op :
  cmake_target self = Some t -> operation_type self = Some op ->
  Py.lower op = "cleanonly" ->
  (exists s', build_group h self s = (Return tt, s'))
  /\ exists evs,
       trace (run h self s).2 = trace s ++ evs /\ calls m_clean evs = 1%nat.
Proof.
  intros Ht Hop Hlow.
  pose proof (build_group_cleanonly h self s t op Ht Hop Hlow) as Hgroup.
  split; [eexists; exact Hgroup|].
  rewrite (run_after_build_group _ _ _ _ Hgroup).
  destruct (run_tests self).
  - match goal with |- context [tests h self ?s0] =>
      destruct (tests_frame h self s0) as (evs & -> & Hevs) end.
    unfold cleaned. sred. eexists.
    split; [rewrite <- !app_assoc; reflexivity|].
    rewrite !calls_app, Hevs.
    destruct (bool_decide _); reflexivity.
  - unfold cleaned. sred. eexists.
    split; [rewrite <- !app_assoc; reflexivity|].
    rewrite !calls_app.
    destruct (bool_decide _); reflexivity.
Qed.

Lemma cleanonly_cleans_once_witness :
  exists evs,
    trace (run (Sample.host "linux" ∅ 1 0)
             (unix_runner (Sample.host "linux" ∅ 1 0) LinuxBuildRunner
                (Sample.with_clean
                   (Sample.with_operation "CleanOnly" Sample.no_args)))
             (Sample.start ∅)).2
    = trace (Sample.start ∅) ++ evs
    /\ calls m_clean evs = 1%nat.
Proof.
  exact (proj2 (cleanonly_cleans_once
                  (Sample.host "linux" ∅ 1 0)
                  (unix_runner (Sample.host "linux" ∅ 1 0) LinuxBuildRunner
                     (Sample.with_clean
                        (Sample.with_operation "CleanOnly" Sample.no_args)))
                  (Sample.start ∅) "all" "CleanOnly"
                  eq_refl eq_refl eq_refl)).
Defined.

(** *** Generate before build *)

(** The first event of [build] is its entry. *)
Lemma build_enters h self s :
  exists evs, trace (build h self s).2 = trace s ++ Call m_build :: evs.
Proof.
  unfold build, create_build_command, build_options, timer. mred.
  destruct (cmake_target self) as [target|]; mred;
    [|eexists; reflexivity].
  destruct (class self); mred; rewrite run_command_run;
    (destruct (child_exit h _) as [code|]; [destruct (code =? 0)|]);
    mred; sred; rewrite <- ?app_assoc; eexists; reflexivity.
Qed.

(** C8: with a resolved cmake target and no operation, [run] first prints
    the banner and (with [--clean]) cleans, which leaves the working
    directory as it is, and then calls [generate].  If [generate] returns,
    it has recorded its elapsed time (the difference of its two timer
    readings) and restored the working directory, its last event being the
    [chdir] back, and only then does [run] go on with [build], whose entry
    is the next event; no entry of [build] occurs earlier.  If [generate]
    raises, [run] raises the same exception and [build] is never entered. *)
Theorem generate_completes_before_build h self s t :
  cmake_target self = Some t ->
  Py.truthy_opt (operation_type self) = false ->
  exists s1,
    (print_start_build_msg h self;;
     if is_clean_build self then clean h self else mret tt) s
    = (Return tt, s1)
    /\ cwd s1 = cwd s
    /\ match generate h self s1 with
       | (Return _, s2) =>
           run h self s =
             (build h self;; print_end_build_msg;; print_times;;
              if run_tests self then tests h self else mret tt) s2
           /\ cwd s2 = cwd s
           /\ timeToGenerate s2 =
              default_timer h (S (timer_calls s1))
              - default_timer h (timer_calls s1)
           /\ (exists evs,
                 trace s2 = trace s ++ evs ++ [Chdir (cwd s)]
                 /\ calls m_build evs = 0%nat)
           /\ (exists evs,
                 trace (build h self s2).2 = trace s2 ++ Call m_build :: evs)
       | (Raise e, s2) =>
           run h self s = (Raise e, s2)
           /\ exists evs,
                trace s2 = trace s ++ evs /\ calls m_build evs = 0%nat
       end.
Proof.
  intros Ht Hop.
  exists (prepared h self s). split; [apply prepare_run|].
  destruct (prepared_frame h self s)
    as (Hcwd & _ & evs0 & Htr & _ & _ & Hb0 & _).
  split; [exact Hcwd|].
  pose proof (generate_spec h self (prepared h self s)) as Hgen.
  assert (Hrun : run h self s =
            (generate h self ≫= fun _ =>
               build h self;; print_end_build_msg;; print_times;;
               if run_tests self then tests h self else mret tt)
              (prepared h self s)).
  { rewrite run_build_group, bind_run.
    rewrite (build_group_prepared h self s t Ht).
    rewrite (if_truthy_falsy _ _ _ Hop).
    cbv beta delta [mbind M_bind].
    destruct (generate h self (prepared h self s)) as [[[]|e] s2];
      [|reflexivity].
    destruct (build h self s2) as [[[]|e] s3]; [|reflexivity].
    destruct (print_end_build_msg s3) as [[[]|e] s4]; [|reflexivity].
    destruct (print_times s4) as [[[]|e] s5]; reflexivity. }
  rewrite Hrun, bind_run.
  destruct (generate h self (prepared h self s)) as [[[]|e] s2].
  - destruct Hgen as (Hcwd2 & Htime & evs & Htr2 & Hb).
    split; [reflexivity|]. split; [congruence|]. split; [exact Htime|].
    split; [|apply build_enters].
    exists (evs0 ++ evs). rewrite Htr2, Htr, Hcwd, calls_app, Hb0, Hb.
    rewrite <- !app_assoc. split; reflexivity.
  - destruct Hgen as (evs & Htr2 & Hb).
    split; [reflexivity|].
    exists (evs0 ++ evs). rewrite Htr2, Htr, calls_app, Hb0, Hb.
    rewrite <- !app_assoc. split; reflexivity.
Qed.

Lemma generate_completes_before_build_witness :
  exists s2,
    generate (Sample.host "linux" ∅ 1 0)
      (unix_runner (Sample.host "linux" ∅ 1 0) LinuxBuildRunner
         (Sample.with_vcpkgdir "/vcpkg" Sample.no_args))
      (prepared (Sample.host "linux" ∅ 1 0)
         (unix_runner (Sample.host "linux" ∅ 1 0) LinuxBuildRunner
            (Sample.with_vcpkgdir "/vcpkg" Sample.no_args))
         (Sample.start ∅))
    = (Return tt, s2)
    /\ cwd s2 = "/work"
    /\ timeToGenerate s2 = 1.
Proof.
  destruct (generate_completes_before_build
              (Sample.host "linux" ∅ 1 0)
              (unix_runner (Sample.host "linux" ∅ 1 0) LinuxBuildRunner
                 (Sample.with_vcpkgdir "/vcpkg" Sample.no_args))
              (Sample.start ∅) "all" eq_refl eq_refl)
    as (s1 & Hprep & _ & Hmatch).
  rewrite prepare_run in Hprep. injection Hprep as <-.
  destruct (generate _ _ _) as [[[]|e] s2] eqn:E.
  - exists s2. split; [reflexivity|].
    destruct Hmatch as (_ & Hcwd & Htime & _).
    split; [exact Hcwd | exact Htime].
  - vm_compute in E. discriminate E.
Defined.

(** * Further properties of the script *)

(** ** The constructors, outcome by outcome *)

Definition only_msvc : exn :=
  ValueError "Only msvc compiler is supported for building on Windows.".

Definition only_gnu_clang (c : runner_class) : exn :=
  match c with
  | OsxBuildRunner =>
      ValueError "Only gnu and clang compilers are supported for building on OsX."
  | _ =>
      ValueError
        "Only gnu and clang compilers are supported for building on Linux."
  end.

Lemma WindowsBuildRunner_init_run h a s :
  WindowsBuildRunner_init h a s =
  match BuildRunnerBase_init h WindowsBuildRunner a s with
  | (Raise e, s') => (Raise e, s')
  | (Return self, s') =>
      if match Args.compiler a with
         | Some v => negb (Py.eqb (Py.lower v) "msvc")
         | None => false
         end
      then (Raise only_msvc, s')
      else if Py.startswith (arch self) "arm"
           then (Return self, log (Warn arm_warning) s')
           else (Return self, s')
  end.
Proof.
  unfold WindowsBuildRunner_init. rewrite bind_run.
  rewrite BuildRunnerBase_init_run.
  destruct (supported_arch _); [|reflexivity].
  destruct (supported_config _); [|reflexivity].
  mred. change (compiler (base_runner h WindowsBuildRunner a)) with "msvc".
  destruct (Args.compiler a) as [v|];
    [destruct (negb (Py.eqb (Py.lower v) "msvc")); [reflexivity|]|];
    mred; destruct (Py.startswith _ _); reflexivity.
Qed.

Lemma unix_init_run h a s :
  (LinuxBuildRunner_init h a s =
   match BuildRunnerBase_init h LinuxBuildRunner a s with
   | (Raise e, s') => (Raise e, s')
   | (Return _, s') =>
       if supported_unix_compiler (resolve_compiler h a)
       then (Return (unix_runner h LinuxBuildRunner a), s')
       else (Raise (only_gnu_clang LinuxBuildRunner), s')
   end)
  /\ (OsxBuildRunner_init h a s =
      match BuildRunnerBase_init h OsxBuildRunner a s with
      | (Raise e, s') => (Raise e, s')
      | (Return _, s') =>
          if supported_unix_compiler (resolve_compiler h a)
          then (Return (unix_runner h OsxBuildRunner a), s')
          else (Raise (only_gnu_clang OsxBuildRunner), s')
      end).
Proof.
  unfold LinuxBuildRunner_init, OsxBuildRunner_init.
  rewrite !bind_run, !BuildRunnerBase_init_run.
  destruct (supported_arch _); [|split; reflexivity].
  destruct (supported_config _); [|split; reflexivity].
  mred.
  change (compiler (set_compiler (resolve_compiler h a)
                      (base_runner h LinuxBuildRunner a)))
    with (resolve_compiler h a).
  change (compiler (set_compiler (resolve_compiler h a)
                      (base_runner h OsxBuildRunner a)))
    with (resolve_compiler h a).
  destruct (supported_unix_compiler _); split; reflexivity.
Qed.

Lemma supported_arch_In (v : string) :
  supported_arch v = true <-> In v ["x64"; "x86"; "arm"].
Proof.
  unfold supported_arch, Py.eqb. rewrite !orb_true_iff, !String.eqb_eq.
  cbn [In]. intuition congruence.
Qed.

Lemma supported_config_In (v : string) :
  supported_config v = true <-> In v ["debug"; "release"].
Proof.
  unfold supported_config, Py.eqb. rewrite !orb_true_iff, !String.eqb_eq.
  cbn [In]. intuition congruence.
Qed.

Lemma supported_unix_compiler_In (v : string) :
  supported_unix_compiler v = true <-> In v ["gnu"; "clang"].
Proof.
  unfold supported_unix_compiler, Py.eqb.
  rewrite !orb_true_iff, !String.eqb_eq. cbn [In]. intuition congruence.
Qed.

(** What the constructors have checked when [create_build_runner]
    returns. *)
Lemma create_build_runner_checked h a s self s' :
  create_build_runner h a s = (Return self, s') ->
  supported_arch (arch self) = true
  /\ supported_config (config self) = true
  /\ match class self with
     | WindowsBuildRunner => compiler self = "msvc"
     | LinuxBuildRunner | OsxBuildRunner =>
         supported_unix_compiler (compiler self) = true
     end.
Proof.
  intros E.
  assert (Hcases :
    (WindowsBuildRunner_init h a s = (Return self, s')
     \/ LinuxBuildRunner_init h a s = (Return self, s')
     \/ OsxBuildRunner_init h a s = (Return self, s'))).
  { revert E. unfold create_build_runner.
    repeat match goal with
    | |- match ?o with Some _ => _ | None => _ end _ = _ -> _ => destruct o
    | |- (if ?b then _ else _) _ = _ -> _ => destruct b
    end; try discriminate; auto. }
  destruct Hcases as [E1 | [E1 | E1]]; revert E1.
  - rewrite WindowsBuildRunner_init_run, BuildRunnerBase_init_run.
    destruct (supported_arch _) eqn:Ha; [|discriminate].
    destruct (supported_config _) eqn:Hc; [|discriminate].
    destruct (match Args.compiler a with Some _ => _ | None => _ end);
      [discriminate|].
    destruct (Py.startswith _ _); intros [= <- _];
      repeat split; assumption || reflexivity.
  - rewrite (proj1 (unix_init_run h a s)), BuildRunnerBase_init_run.
    destruct (supported_arch _) eqn:Ha; [|discriminate].
    destruct (supported_config _) eqn:Hc; [|discriminate].
    destruct (supported_unix_compiler _) eqn:Hk; [|discriminate].
    intros [= <- _]. repeat split; assumption.
  - rewrite (proj2 (unix_init_run h a s)), BuildRunnerBase_init_run.
    destruct (supported_arch _) eqn:Ha; [|discriminate].
    destruct (supported_config _) eqn:Hc; [|discriminate].
    destruct (supported_unix_compiler _) eqn:Hk; [|discriminate].
    intros [= <- _]. repeat split; assumption.
Qed.

(** X1: every runner [create_build_runner] returns is a valid
    configuration: its architecture is [x64], [x86] or [arm], its build mode
    [debug] or [release], and its compiler [msvc] for the Windows class and
    [gnu] or [clang] for the Linux and OsX classes. *)
Theorem constructed_runner_is_valid h a s self s' :
  create_build_runner h a s = (Return self, s') ->
  In (arch self) ["x64"; "x86"; "arm"]
  /\ In (config self) ["debug"; "release"]
  /\ match class self with
     | WindowsBuildRunner => compiler self = "msvc"
     | LinuxBuildRunner | OsxBuildRunner => In (compiler self) ["gnu"; "clang"]
     end.
Proof.
  intros E.
  destruct (create_build_runner_checked _ _ _ _ _ E) as (Ha & Hc & Hk).
  split; [apply supported_arch_In, Ha|].
  split; [apply supported_config_In, Hc|].
  destruct (class self); [exact Hk | apply supported_unix_compiler_In, Hk..].
Qed.

Lemma constructed_runner_is_valid_witness :
  In (arch (unix_runner (Sample.host "linux" ∅ 1 0) LinuxBuildRunner
              (Sample.with_compiler "Clang" Sample.no_args)))
     ["x64"; "x86"; "arm"]
  /\ In (compiler (unix_runner (Sample.host "linux" ∅ 1 0) LinuxBuildRunner
                     (Sample.with_compiler "Clang" Sample.no_args)))
        ["gnu"; "clang"].
Proof.
  assert (E : create_build_runner (Sample.host "linux" ∅ 1 0)
                (Sample.with_compiler "Clang" Sample.no_args) (Sample.start ∅)
              = (Return (unix_runner (Sample.host "linux" ∅ 1 0)
                           LinuxBuildRunner
                           (Sample.with_compiler "Clang" Sample.no_args)),
                 init_done (Sample.host "linux" ∅ 1 0) (Sample.start ∅)))
    by (vm_compute; reflexivity).
  destruct (constructed_runner_is_valid _ _ _ _ _ E) as (Ha & _ & Hk).
  split; [exact Ha | exact Hk].
Defined.

(** ** The flavor *)

(** No character of [s] is a hyphen. *)
Fixpoint no_dash (s : string) : bool :=
  match s with
  | EmptyString => true
  | String c s' => negb (Ascii.eqb c "-") && no_dash s'
  end.

Lemma split_at_dash (a a' r r' : string) :
  no_dash a = true -> no_dash a' = true ->
  a +:+ "-" +:+ r = a' +:+ "-" +:+ r' -> a = a' /\ r = r'.
Proof.
  revert a'. induction a as [|c a IH]; intros [|c' a'] Ha Ha' E;
    cbv [String.append] in E; fold String.append in E; cbn in Ha, Ha'.
  - injection E as ->. auto.
  - injection E as <- _. discriminate Ha'.
  - injection E as -> _. discriminate Ha.
  - injection E as -> E.
    apply andb_prop in Ha as [_ Ha]. apply andb_prop in Ha' as [_ Ha'].
    destruct (IH a' Ha Ha' E) as [-> ->]. auto.
Qed.

Lemma In_no_dash (v : string) (l : list string) :
  forallb no_dash l = true -> In v l -> no_dash v = true.
Proof. rewrite forallb_forall. auto. Qed.

Lemma valid_runner_no_dash (self : BuildRunner) :
  supported_arch (arch self) = true ->
  match class self with
  | WindowsBuildRunner => compiler self = "msvc"
  | LinuxBuildRunner | OsxBuildRunner =>
      supported_unix_compiler (compiler self) = true
  end ->
  no_dash (platform self) = true /\ no_dash (arch self) = true
  /\ no_dash (compiler self) = true.
Proof.
  intros Ha Hk. split; [unfold platform; destruct (class self); reflexivity|].
  apply supported_arch_In in Ha.
  split; [exact (In_no_dash _ ["x64"; "x86"; "arm"] eq_refl Ha)|].
  destruct (class self);
    [rewrite Hk; reflexivity
    | apply supported_unix_compiler_In in Hk;
      exact (In_no_dash _ ["gnu"; "clang"] eq_refl Hk)..].
Qed.

(** X2: the flavor determines the configuration.  Two runners that
    [create_build_runner] returned, on any hosts and for any arguments, and
    that have the same flavor string have the same platform, architecture,
    compiler and build mode; so different configurations never share a
    flavor (nor, with it, a build directory name). *)
Theorem flavor_determines_configuration h1 a1 s1 r1 s1' h2 a2 s2 r2 s2' :
  create_build_runner h1 a1 s1 = (Return r1, s1') ->
  create_build_runner h2 a2 s2 = (Return r2, s2') ->
  flavor r1 = flavor r2 ->
  platform r1 = platform r2 /\ arch r1 = arch r2
  /\ compiler r1 = compiler r2 /\ config r1 = config r2.
Proof.
  intros E1 E2 Hflavor.
  destruct (create_build_runner_checked _ _ _ _ _ E1) as (Ha1 & _ & Hk1).
  destruct (create_build_runner_checked _ _ _ _ _ E2) as (Ha2 & _ & Hk2).
  destruct (valid_runner_no_dash r1 Ha1 Hk1) as (Hp1 & Hn1 & Hc1).
  destruct (valid_runner_no_dash r2 Ha2 Hk2) as (Hp2 & Hn2 & Hc2).
  unfold flavor in Hflavor.
  apply split_at_dash in Hflavor as [Hp Hflavor]; [|assumption..].
  apply split_at_dash in Hflavor as [Hn Hflavor]; [|assumption..].
  apply split_at_dash in Hflavor as [Hc Hflavor]; [|assumption..].
  auto.
Qed.

Lemma flavor_determines_configuration_witness :
  arch (unix_runner (Sample.host "linux" ∅ 1 0) LinuxBuildRunner
          (Sample.with_arch "X64" Sample.no_args))
  = arch (unix_runner
            (Sample.host "linux" {[ "BUILD_COMPILER" := "GNU" ]} 1 0)
            LinuxBuildRunner Sample.no_args).
Proof.
  assert (E1 : create_build_runner (Sample.host "linux" ∅ 1 0)
                 (Sample.with_arch "X64" Sample.no_args) (Sample.start ∅)
               = (Return (unix_runner (Sample.host "linux" ∅ 1 0)
                            LinuxBuildRunner
                            (Sample.with_arch "X64" Sample.no_args)),
                  init_done (Sample.host "linux" ∅ 1 0) (Sample.start ∅)))
    by (vm_compute; reflexivity).
  assert (E2 : create_build_runner
                 (Sample.host "linux" {[ "BUILD_COMPILER" := "GNU" ]} 1 0)
                 Sample.no_args (Sample.start ∅)
               = (Return (unix_runner
                            (Sample.host "linux"
                               {[ "BUILD_COMPILER" := "GNU" ]} 1 0)
                            LinuxBuildRunner Sample.no_args),
                  init_done
                    (Sample.host "linux" {[ "BUILD_COMPILER" := "GNU" ]} 1 0)
                    (Sample.start ∅)))
    by (vm_compute; reflexivity).
  refine (proj1 (proj2 (flavor_determines_configuration
                          _ _ _ _ _ _ _ _ _ _ E1 E2 _))).
  vm_compute. reflexivity.
Defined.

(** ** Rejected configurations *)

(** X3: when the resolved architecture is supported and the resolved build
    mode is neither [debug] nor [release], the constructor of every class
    raises [ValueError] with the message [Building <value> configuration for
    <platform> is not supported.], the value being the lower-cased one. *)
Theorem unsupported_config_is_fatal h a s :
  In (resolve_arch h a) ["x64"; "x86"; "arm"] ->
  resolve_config h a <> "debug" -> resolve_config h a <> "release" ->
  (WindowsBuildRunner_init h a s).1 =
    Raise (ValueError ("Building " +:+ resolve_config h a
                       +:+ " configuration for windows is not supported."))
  /\ (LinuxBuildRunner_init h a s).1 =
    Raise (ValueError ("Building " +:+ resolve_config h a
                       +:+ " configuration for linux is not supported."))
  /\ (OsxBuildRunner_init h a s).1 =
    Raise (ValueError ("Building " +:+ resolve_config h a
                       +:+ " configuration for osx is not supported.")).
Proof.
  intros Ha Hd Hr. apply supported_arch_In in Ha.
  assert (Hc : supported_config (resolve_config h a) = false).
  { unfold supported_config. rewrite !eqb_false by assumption. reflexivity. }
  rewrite WindowsBuildRunner_init_run, (proj1 (unix_init_run h a s)),
    (proj2 (unix_init_run h a s)), !BuildRunnerBase_init_run, Ha, Hc.
  repeat split.
Qed.

Lemma unsupported_config_is_fatal_witness :
  (LinuxBuildRunner_init (Sample.host "linux" ∅ 1 0)
     (Sample.with_config "RelWithDebInfo" Sample.no_args) (Sample.start ∅)).1
  = Raise (ValueError
      "Building relwithdebinfo configuration for linux is not supported.").
Proof.
  refine (proj1 (proj2 (unsupported_config_is_fatal
            (Sample.host "linux" ∅ 1 0)
            (Sample.with_config "RelWithDebInfo" Sample.no_args)
            (Sample.start ∅) _ _ _)));
    [vm_compute; auto | vm_compute; discriminate..].
Defined.

(** X4: the compiler checks.  With a supported architecture and build mode,
    the Windows constructor raises as soon as [--compiler] is given with a
    value that is not [msvc] in some letter case (the empty string
    included), whatever [BUILD_COMPILER] holds; without [--compiler] it
    never raises for the compiler.  The Linux and OsX constructors raise
    when the resolved compiler is neither [gnu] nor [clang]. *)
Theorem unsupported_compiler_is_fatal h a s :
  In (resolve_arch h a) ["x64"; "x86"; "arm"] ->
  In (resolve_config h a) ["debug"; "release"] ->
  (forall v, Args.compiler a = Some v -> Py.lower v <> "msvc" ->
     (WindowsBuildRunner_init h a s).1 = Raise only_msvc)
  /\ (Args.compiler a = None ->
      (WindowsBuildRunner_init h a s).1
      = Return (base_runner h WindowsBuildRunner a))
  /\ (resolve_compiler h a <> "gnu" -> resolve_compiler h a <> "clang" ->
      (LinuxBuildRunner_init h a s).1 = Raise (only_gnu_clang LinuxBuildRunner)
      /\ (OsxBuildRunner_init h a s).1 = Raise (only_gnu_clang OsxBuildRunner)).
Proof.
  intros Ha Hc. apply supported_arch_In in Ha. apply supported_config_In in Hc.
  rewrite WindowsBuildRunner_init_run, (proj1 (unix_init_run h a s)),
    (proj2 (unix_init_run h a s)), !BuildRunnerBase_init_run, Ha, Hc.
  split; [|split].
  - intros v -> Hv. rewrite eqb_false by exact Hv. reflexivity.
  - intros ->. destruct (Py.startswith _ _); reflexivity.
  - intros Hg Hk. unfold supported_unix_compiler.
    rewrite !eqb_false by assumption. split; reflexivity.
Qed.

Lemma unsupported_compiler_is_fatal_witness :
  (WindowsBuildRunner_init
     (Sample.host "win32" {[ "BUILD_COMPILER" := "msvc" ]} 1 0)
     (Sample.with_compiler "clang" Sample.no_args) (Sample.start ∅)).1
  = Raise only_msvc.
Proof.
  refine (proj1 (unsupported_compiler_is_fatal
            (Sample.host "win32" {[ "BUILD_COMPILER" := "msvc" ]} 1 0)
            (Sample.with_compiler "clang" Sample.no_args) (Sample.start ∅)
            _ _) "clang" eq_refl _);
    [vm_compute; auto | vm_compute; auto | discriminate].
Defined.

(** ** Choice of the platform *)

(** X5: the three host tests exclude each other: whatever [AGENT_OS] and
    [sys.platform] hold, at most one of [is_running_on_windows],
    [is_running_on_linux] and [is_running_on_osx] is true. *)
Theorem host_tests_exclude_each_other h :
  is_running_on_windows h && is_running_on_linux h = false
  /\ is_running_on_windows h && is_running_on_osx h = false
  /\ is_running_on_linux h && is_running_on_osx h = false.
Proof.
  unfold is_running_on_windows, is_running_on_linux, is_running_on_osx,
    Py.startswith.
  destruct (get_os_name h) as [|c n]; [repeat split|].
  cbn [String.prefix].
  destruct (ascii_dec "w" c) as [Hw|Hw], (ascii_dec "l" c) as [Hl|Hl],
    (ascii_dec "d" c) as [Hd|Hd]; try congruence;
    repeat split; try apply andb_false_r; reflexivity.
Qed.

(** X6: a platform that cannot be served is reported before anything else
    happens: [create_build_runner] raises and leaves the state as it found
    it (nothing printed, no timing reset).  A [--platform] that is
    [windows], [linux] or [osx] in some letter case on a host that fails the
    matching test raises [NotSupportedHostEnvironmentError]; any other
    [--platform] raises [NotSupportedTargetPlatformError] naming the
    lower-cased value; no [--platform] on a host that fails all three tests
    raises [ValueError]. *)
Theorem unserved_platform_is_fatal h a s :
  (forall p, Args.platform a = Some p ->
     (Py.lower p = "windows" -> is_running_on_windows h = false ->
      create_build_runner h a s =
        (Raise (NotSupportedHostEnvironmentError
           "Building for Windows on this host environment is not supported."),
         s))
     /\ (Py.lower p = "linux" -> is_running_on_linux h = false ->
         create_build_runner h a s =
           (Raise (NotSupportedHostEnvironmentError
              "Building for Linux on this host environment is not supported."),
            s))
     /\ (Py.lower p = "osx" -> is_running_on_osx h = false ->
         create_build_runner h a s =
           (Raise (NotSupportedHostEnvironmentError
              "Building for OsX on this host environment is not supported."),
            s))
     /\ (Py.lower p <> "windows" -> Py.lower p <> "linux" ->
         Py.lower p <> "osx" ->
         create_build_runner h a s =
           (Raise (NotSupportedTargetPlatformError
              ("Currently builds for " +:+ Py.lower p
               +:+ " are not supported.")),
            s)))
  /\ (Args.platform a = None ->
      is_running_on_windows h = false -> is_running_on_linux h = false ->
      is_running_on_osx h = false ->
      create_build_runner h a s =
        (Raise (ValueError
           "Target platform was not specified and could not be deduced from the current host environment."),
         s)).
Proof.
  split.
  - intros p Hp. unfold create_build_runner. rewrite Hp.
    repeat split.
    + intros -> ->. reflexivity.
    + intros -> ->. reflexivity.
    + intros -> ->. reflexivity.
    + intros Hw Hl Ho. rewrite !eqb_false by assumption. reflexivity.
  - intros Hp Hw Hl Ho. unfold create_build_runner.
    rewrite Hp, Hw, Hl, Ho. reflexivity.
Qed.

Lemma unserved_platform_is_fatal_witness :
  create_build_runner (Sample.host "linux" ∅ 1 0)
    (Sample.with_platform "Windows" Sample.no_args) (Sample.start ∅)
  = (Raise (NotSupportedHostEnvironmentError
       "Building for Windows on this host environment is not supported."),
     Sample.start ∅).
Proof.
  refine (proj1 (proj1 (unserved_platform_is_fatal
            (Sample.host "linux" ∅ 1 0)
            (Sample.with_platform "Windows" Sample.no_args) (Sample.start ∅))
            "Windows" eq_refl) _ _);
    vm_compute; reflexivity.
Defined.

(** ** What construction does to the process *)

Definition is_message (e : event) : bool :=
  match e with Print _ | Warn _ => true | _ => false end.

(** The parts of the state no constructor touches. *)
Definition same_process (s s' : state) : Prop :=
  cwd s' = cwd s /\ exists_ s' = exists_ s /\ timer_calls s' = timer_calls s
  /\ exists evs, trace s' = trace s ++ evs /\ forallb is_message evs = true.

Lemma same_process_refl s : same_process s s.
Proof.
  repeat split. exists []. rewrite app_nil_r. split; reflexivity.
Qed.

Lemma same_process_init_failed h s : same_process s (init_failed h s).
Proof. repeat split. eexists. split; reflexivity. Qed.

Lemma same_process_init_done h s : same_process s (init_done h s).
Proof.
  repeat split. eexists. unfold init_done, init_failed. sred.
  rewrite <- app_assoc. split; reflexivity.
Qed.

Lemma same_process_warned h s :
  same_process s (log (Warn arm_warning) (init_done h s)).
Proof.
  repeat split. eexists. unfold init_done, init_failed. sred.
  rewrite <- !app_assoc. split; reflexivity.
Qed.

Lemma BuildRunnerBase_init_frame h c a s :
  (BuildRunnerBase_init h c a s).2 = init_failed h s
  \/ (BuildRunnerBase_init h c a s).2 = init_done h s.
Proof.
  rewrite BuildRunnerBase_init_run.
  destruct (supported_arch _); [destruct (supported_config _)|]; auto.
Qed.

(** X7: constructing a runner only prints and warns.  Whether
    [create_build_runner] returns or raises, the working directory, the
    existing directories and the number of timer readings are what they
    were, and every event it adds is a printed line or a warning: no child
    is started, nothing is deleted or created.  When it raises, [main]
    raises the same exception in the same state, so a configuration that is
    rejected reaches no phase, [--clean] or not. *)
Theorem create_build_runner_only_prints h a s :
  same_process s (create_build_runner h a s).2
  /\ (forall e s1,
        create_build_runner h a s = (Raise e, s1) ->
        main h a s = (Raise e, s1)).
Proof.
  split; [|intros e s1 E; exact (bind_raise _ _ _ _ _ E)].
  assert (Hw : same_process s (WindowsBuildRunner_init h a s).2).
  { rewrite WindowsBuildRunner_init_run, BuildRunnerBase_init_run.
    destruct (supported_arch _);
      [destruct (supported_config _)|];
      try apply same_process_init_failed.
    destruct (match Args.compiler a with Some _ => _ | None => _ end);
      [apply same_process_init_done|].
    destruct (Py.startswith _ _);
      [apply same_process_warned | apply same_process_init_done]. }
  assert (Hl : same_process s (LinuxBuildRunner_init h a s).2).
  { rewrite (proj1 (unix_init_run h a s)), BuildRunnerBase_init_run.
    destruct (supported_arch _);
      [destruct (supported_config _)|];
      try apply same_process_init_failed.
    destruct (supported_unix_compiler _); apply same_process_init_done. }
  assert (Ho : same_process s (OsxBuildRunner_init h a s).2).
  { rewrite (proj2 (unix_init_run h a s)), BuildRunnerBase_init_run.
    destruct (supported_arch _);
      [destruct (supported_config _)|];
      try apply same_process_init_failed.
    destruct (supported_unix_compiler _); apply same_process_init_done. }
  unfold create_build_runner.
  repeat match goal with
  | |- same_process _ (match ?o with Some _ => _ | None => _ end _).2 =>
      destruct o
  | |- same_process _ ((if ?b then _ else _) _).2 => destruct b
  end; first [assumption | apply same_process_refl].
Qed.

(** X8: the Windows constructor warns about [arm] and goes on.  When it
    returns, it has issued the warning exactly if the architecture is [arm],
    and the generator of the runner is [Visual Studio 15 2017 Win64] exactly
    if the architecture is [x64] and [Visual Studio 15 2017] otherwise. *)
Theorem windows_arm_warns_and_proceeds h a s self s' :
  WindowsBuildRunner_init h a s = (Return self, s') ->
  (arch self = "arm" -> s' = log (Warn arm_warning) (init_done h s))
  /\ (arch self <> "arm" -> s' = init_done h s)
  /\ (arch self = "x64" ->
      generator self = Some "Visual Studio 15 2017 Win64")
  /\ (arch self <> "x64" -> generator self = Some "Visual Studio 15 2017").
Proof.
  rewrite WindowsBuildRunner_init_run, BuildRunnerBase_init_run.
  destruct (supported_arch _) eqn:Ha; [|discriminate].
  destruct (supported_config _); [|discriminate].
  destruct (match Args.compiler a with Some _ => _ | None => _ end);
    [discriminate|].
  apply supported_arch_In in Ha.
  change (arch (base_runner h WindowsBuildRunner a)) with (resolve_arch h a).
  assert (Harm : Py.startswith (resolve_arch h a) "arm"
                 = Py.eqb (resolve_arch h a) "arm").
  { destruct Ha as [<- | [<- | [<- | []]]]; reflexivity. }
  rewrite Harm.
  destruct (Py.eqb (resolve_arch h a) "arm") eqn:E; intros [= <- <-];
    change (arch (base_runner h WindowsBuildRunner a)) with (resolve_arch h a);
    (apply String.eqb_eq in E || apply String.eqb_neq in E);
    repeat split; intros H; try congruence; try reflexivity;
    unfold generator; cbn [class base_runner arch];
    first [ rewrite H; reflexivity
          | rewrite eqb_false by exact H; reflexivity ].
Qed.

Lemma windows_arm_warns_and_proceeds_witness :
  (WindowsBuildRunner_init (Sample.host "win32" ∅ 1 0)
     (Sample.with_arch "ARM" Sample.no_args) (Sample.start ∅)).2
  = log (Warn arm_warning)
      (init_done (Sample.host "win32" ∅ 1 0) (Sample.start ∅)).
Proof.
  assert (E : WindowsBuildRunner_init (Sample.host "win32" ∅ 1 0)
                (Sample.with_arch "ARM" Sample.no_args) (Sample.start ∅)
              = (Return (base_runner (Sample.host "win32" ∅ 1 0)
                           WindowsBuildRunner
                           (Sample.with_arch "ARM" Sample.no_args)),
                 (WindowsBuildRunner_init (Sample.host "win32" ∅ 1 0)
                    (Sample.with_arch "ARM" Sample.no_args)
                    (Sample.start ∅)).2))
    by (vm_compute; reflexivity).
  exact (proj1 (windows_arm_warns_and_proceeds _ _ _ _ _ E) eq_refl).
Defined.

(** ** The clean phase and the build directory *)

Lemma cleaned_exists h self s :
  exists_ (cleaned h self s) = exists_ s ∖ {[build_path h self]}.
Proof.
  unfold cleaned. sred. destruct (bool_decide _) eqn:E; [reflexivity|].
  apply bool_decide_eq_false_1 in E.
  rewrite difference_disjoint_L; [reflexivity|].
  apply disjoint_singleton_r. exact E.
Qed.

Lemma cleaned_gone h self s : build_path h self ∉ exists_ (cleaned h self s).
Proof.
  rewrite cleaned_exists. apply not_elem_of_difference. right.
  apply elem_of_singleton. reflexivity.
Qed.


(** ** An operation the script does not know *)

(** X10: an unknown operation is reported after the banner and after the
    clean phase.  With a resolved cmake target and an operation that is not
    empty and is none of [generate], [build], [cleanonly] in any letter
    case, [run] raises [ValueError] with the message [Invalid operation
    specified: <operation as given>].  By then the banner is printed and,
    with [--clean], the build directory is already deleted; no summary is
    printed and the test phase is not entered, [--runtests] or not. *)
Theorem invalid_operation_is_fatal h self s t op :
  cmake_target self = Some t -> operation_type self = Some op -> op <> "" ->
  Py.lower op <> "generate" -> Py.lower op <> "build" ->
  Py.lower op <> "cleanonly" ->
  exists s',
    run h self s =
      (Raise (ValueError ("Invalid operation specified: " +:+ op)), s')
    /\ trace s' =
       trace s ++ banner h self
       ++ (if is_clean_build self
           then clean_events h self
                  (bool_decide (build_path h self ∈ exists_ s))
           else [])
    /\ (is_clean_build self = true -> build_path h self ∉ exists_ s')
    /\ (is_clean_build self = false -> exists_ s' = exists_ s).
Proof.
  intros Ht Hop Hne Hg Hb Hc.
  exists (prepared h self s). split.
  - apply run_build_group_raises.
    rewrite (build_group_prepared h self s t Ht), Hop.
    rewrite if_truthy_some by exact Hne.
    rewrite !eqb_false by assumption. reflexivity.
  - unfold prepared. destruct (is_clean_build self).
    + split; [unfold cleaned; sred; rewrite <- app_assoc; reflexivity|].
      split; [|discriminate]. intros _. apply cleaned_gone.
    + split; [sred; rewrite app_nil_r; reflexivity|].
      split; [discriminate | reflexivity].
Qed.

Lemma invalid_operation_is_fatal_witness :
  (run (Sample.host "linux" ∅ 1 0)
     (unix_runner (Sample.host "linux" ∅ 1 0) LinuxBuildRunner
        (Sample.with_clean
           (Sample.with_runtests
              (Sample.with_cmaketarget "all"
                 (Sample.with_operation "Rebuild" Sample.no_args)))))
     (Sample.start ∅)).1
  = Raise (ValueError "Invalid operation specified: Rebuild").
Proof.
  destruct (invalid_operation_is_fatal
              (Sample.host "linux" ∅ 1 0)
              (unix_runner (Sample.host "linux" ∅ 1 0) LinuxBuildRunner
                 (Sample.with_clean
                    (Sample.with_runtests
                       (Sample.with_cmaketarget "all"
                          (Sample.with_operation "Rebuild" Sample.no_args)))))
              (Sample.start ∅) "all" "Rebuild" eq_refl eq_refl)
    as (s' & -> & _); [discriminate.. | reflexivity].
Defined.

(** ** The build phase *)

(** The command [create_build_command] returns for the target [target]. *)
Definition build_command (h : Host) (self : BuildRunner) (target : string)
    : list string :=
  ["cmake"; "--build"; build_path h self; "--target"; target]
  ++ match class self with
     | WindowsBuildRunner => ["--config"; config self]
     | LinuxBuildRunner | OsxBuildRunner => []
     end.

Lemma create_build_command_run h self target s :
  cmake_target self = Some target ->
  create_build_command h self s = (Return (build_command h self target), s).
Proof.
  intros Ht. unfold create_build_command, build_options, build_command.
  rewrite Ht. destruct (class self); reflexivity.
Qed.

(** The state [build] has reached when it starts the child. *)
Definition building (h : Host) (cmd : list string) (s : state) : state :=
  {| timeToClean := timeToClean s;
     timeToGenerate := timeToGenerate s;
     timeToBuild := timeToBuild s;
     cwd := cwd s;
     exists_ := exists_ s;
     timer_calls := S (timer_calls s);
     trace := trace s ++ [Call m_build;
                          Print ("Executing: " +:+ Py.join " " cmd);
                          running cmd] |}.

(** The state it leaves when the child exits with status 0. *)
Definition built (h : Host) (cmd : list string) (s : state) : state :=
  {| timeToClean := timeToClean s;
     timeToGenerate := timeToGenerate s;
     timeToBuild :=
       default_timer h (S (timer_calls s)) - default_timer h (timer_calls s);
     cwd := cwd s;
     exists_ := exists_ s;
     timer_calls := S (S (timer_calls s));
     trace := trace s ++ [Call m_build;
                          Print ("Executing: " +:+ Py.join " " cmd);
                          running cmd; Spawn cmd false] |}.

Lemma build_run h self target s :
  cmake_target self = Some target ->
  build h self s =
  match child_exit h (build_command h self target) with
  | None =>
      (Raise (OSError (build_command h self target)),
       building h (build_command h self target) s)
  | Some code =>
      if code =? 0
      then (Return tt, built h (build_command h self target) s)
      else (Raise (CalledProcessError code (build_command h self target)),
            logs [Spawn (build_command h self target) false;
                  rethrowing (build_command h self target)]
              (building h (build_command h self target) s))
  end.
Proof.
  intros Ht. unfold build. mred.
  rewrite (create_build_command_run h self target _ Ht). mred.
  unfold timer. sred. rewrite run_command_run.
  destruct (child_exit h _) as [code|]; [destruct (code =? 0)|];
    mred; sred; f_equal; unfold building, built; state_eq.
Qed.

(** How often a child is started in the events [evs]. *)
Definition spawns (evs : list event) : nat :=
  List.length (List.filter is_spawn evs).

Lemma spawns_app (e1 e2 : list event) :
  spawns (e1 ++ e2) = (spawns e1 + spawns e2)%nat.
Proof. unfold spawns. rewrite List.filter_app, List.length_app. reflexivity. Qed.

(** X11: operation [build] runs the build tool alone and needs no
    dependency-manager root.  With a resolved cmake target [t], operation
    [build] in any letter case and a build tool that exits with status 0,
    the build group returns normally whether or not a dependency-manager
    root is configured; after the banner (and the clean phase, with
    [--clean]) its events are the entry of [build], the two lines naming the
    command, the start of exactly the command [cmake --build <build path>
    --target t] (followed by [--config <mode>] for the Windows class), and
    the summary; the elapsed time is recorded as build time. *)
Theorem build_only_needs_no_root h self s t op :
  cmake_target self = Some t -> operation_type self = Some op ->
  Py.lower op = "build" ->
  child_exit h (build_command h self t) = Some 0 ->
  exists s0 s',
    (print_start_build_msg h self;;
     if is_clean_build self then clean h self else mret tt) s
    = (Return tt, s0)
    /\ build_group h self s = (Return tt, s')
    /\ trace s' =
       trace s0
       ++ [Call m_build;
           Print ("Executing: " +:+ Py.join " " (build_command h self t));
           running (build_command h self t);
           Spawn (build_command h self t) false;
           Print "Build Complete";
           PrintTime "Time to clean: " (timeToClean s0);
           PrintTime "Time to generate: " (timeToGenerate s0);
           PrintTime "Time to build: "
             (default_timer h (S (timer_calls s0))
              - default_timer h (timer_calls s0))]
    /\ timeToBuild s' =
       default_timer h (S (timer_calls s0)) - default_timer h (timer_calls s0)
    /\ cwd s' = cwd s
    /\ exists_ s' = exists_ s0.
Proof.
  intros Ht Hop Hlow Hexit.
  exists (prepared h self s),
         (logs (summary (built h (build_command h self t) (prepared h self s)))
            (built h (build_command h self t) (prepared h self s))).
  split; [apply prepare_run|]. split.
  - rewrite (build_group_prepared h self s t Ht), Hop.
    rewrite if_truthy_some
      by (eapply lower_nonempty; [exact Hlow | discriminate]).
    rewrite Hlow.
    change (Py.eqb "build" "generate") with false.
    change (Py.eqb "build" "build") with true.
    cbv beta iota.
    assert (Hb : build h self (prepared h self s)
                 = (Return tt, built h (build_command h self t)
                                 (prepared h self s))).
    { rewrite (build_run h self t _ Ht), Hexit. reflexivity. }
    rewrite (bind_return _ _ _ _ _ Hb). apply summary_run.
  - unfold built, summary. sred.
    split; [rewrite <- app_assoc; reflexivity|].
    split; [reflexivity|].
    split; [exact (proj1 (prepared_frame h self s)) | reflexivity].
Qed.

Lemma build_only_needs_no_root_witness :
  exists s',
    build_group (Sample.host "win32" ∅ 2 0)
      (base_runner (Sample.host "win32" ∅ 2 0) WindowsBuildRunner
         (Sample.with_operation "BUILD"
            (Sample.with_config "Release" Sample.no_args)))
      (Sample.start ∅) = (Return tt, s')
    /\ timeToBuild s' = 2.
Proof.
  destruct (build_only_needs_no_root
              (Sample.host "win32" ∅ 2 0)
              (base_runner (Sample.host "win32" ∅ 2 0) WindowsBuildRunner
                 (Sample.with_operation "BUILD"
                    (Sample.with_config "Release" Sample.no_args)))
              (Sample.start ∅) "all" "BUILD" eq_refl eq_refl eq_refl eq_refl)
    as (s0 & s' & Hprep & Hgroup & _ & Htime & _).
  exists s'. split; [exact Hgroup|]. rewrite Htime.
  rewrite prepare_run in Hprep. injection Hprep as <-.
  vm_compute. reflexivity.
Defined.

(** ** The default operation: generate, then build *)

Lemma run_default h self s t :
  cmake_target self = Some t ->
  Py.truthy_opt (operation_type self) = false ->
  run h self s =
  (generate h self ≫= fun _ =>
     build h self;; print_end_build_msg;; print_times;;
     if run_tests self then tests h self else mret tt)
    (prepared h self s).
Proof.
  intros Ht Hop.
  rewrite run_build_group, bind_run.
  rewrite (build_group_prepared h self s t Ht).
  rewrite (if_truthy_falsy _ _ _ Hop).
  cbv beta delta [mbind M_bind].
  destruct (generate h self (prepared h self s)) as [[[]|e] s2];
    [|reflexivity].
  destruct (build h self s2) as [[[]|e] s3]; [|reflexivity].
  destruct (print_end_build_msg s3) as [[[]|e] s4]; [|reflexivity].
  destruct (print_times s4) as [[[]|e] s5]; reflexivity.
Qed.

Lemma prepared_timeToGenerate h self s :
  timeToGenerate (prepared h self s) = timeToGenerate s.
Proof. unfold prepared. destruct (is_clean_build self); reflexivity. Qed.

(** X12: a failed generate phase stops the run inside the build directory.
    With a resolved cmake target, no operation and a dependency-manager root,
    if [generate] raises (its child cannot be started or exits with a
    non-zero status), [run] raises the same exception; the working directory
    is then the build directory, not the one the run started in; the build
    directory exists; the recorded generate time is untouched; and neither
    [build] nor [tests] has been entered, [--runtests] or not. *)
Theorem failed_generate_stops_run h self s t root s1 e s' :
  cmake_target self = Some t ->
  Py.truthy_opt (operation_type self) = false ->
  vcpkg_root_path self = Some root ->
  (print_start_build_msg h self;;
   if is_clean_build self then clean h self else mret tt) s
  = (Return tt, s1) ->
  generate h self s1 = (Raise e, s') ->
  run h self s = (Raise e, s')
  /\ cwd s' = build_path h self
  /\ build_path h self ∈ exists_ s'
  /\ timeToGenerate s' = timeToGenerate s
  /\ exists evs,
       trace s' = trace s ++ evs
       /\ calls m_build evs = 0%nat /\ calls m_tests evs = 0%nat.
Proof.
  intros Ht Hop Hroot Hprep Hgen.
  rewrite prepare_run in Hprep. injection Hprep as <-.
  split.
  { rewrite (run_default h self s t Ht Hop).
    exact (bind_raise _ _ _ _ _ Hgen). }
  destruct (prepared_frame h self s) as (_ & _ & evs0 & Htr & _ & _ & Hb0 & _).
  assert (Ht0 : calls m_tests evs0 = 0%nat).
  { revert Htr. unfold prepared, cleaned. 
    destruct (is_clean_build self); sred; rewrite <- ?app_assoc;
      intros Htr; apply app_inv_head in Htr; subst evs0;
      [destruct (bool_decide _)|]; reflexivity. }
  destruct (generate_run_some h self root Hroot) as [cmd Hrun].
  rewrite Hrun in Hgen.
  destruct (child_exit h cmd) as [code|]; [destruct (code =? 0)|];
    [discriminate Hgen | |]; injection Hgen as <- <-;
    unfold generating; sred;
    (split; [reflexivity|]);
    (split; [apply elem_of_union_l, elem_of_singleton; reflexivity|]);
    (split; [apply prepared_timeToGenerate|]);
    rewrite Htr, <- !app_assoc; eexists; (split; [reflexivity|]);
    rewrite !calls_app, Hb0, Ht0; split; reflexivity.
Qed.

(** A Linux host whose children all exit with status 3, and the runner it
    builds for [--vcpkgdir /vcpkg --cmaketarget all --runtests]. *)
Definition failing_host : Host := Sample.host "linux" ∅ 1 3.

Definition failing_runner : BuildRunner :=
  unix_runner failing_host LinuxBuildRunner
    (Sample.with_runtests
       (Sample.with_cmaketarget "all"
          (Sample.with_vcpkgdir "/vcpkg" Sample.no_args))).

Lemma failed_generate_stops_run_witness :
  exists s',
    run failing_host failing_runner (Sample.start ∅)
    = (Raise (CalledProcessError 3
         ["cmake"; "/repo/build/.."; "-G"; "Unix Makefiles";
          "-DCMAKE_BUILD_TYPE=Debug";
          "-DCMAKE_TOOLCHAIN_FILE=/vcpkg/scripts/buildsystems/vcpkg.cmake";
          "-DVCPKG_CHAINLOAD_TOOLCHAIN_FILE=/repo/build/../build/cmake/toolchain-linux-x64-gnu.cmake"]),
       s')
    /\ cwd s' = "/tmp/build_do_proxywrapper/linux-x64-gnu-debug".
Proof.
  assert (Hgen :
    generate failing_host failing_runner
      (prepared failing_host failing_runner (Sample.start ∅))
    = (Raise (CalledProcessError 3
         ["cmake"; "/repo/build/.."; "-G"; "Unix Makefiles";
          "-DCMAKE_BUILD_TYPE=Debug";
          "-DCMAKE_TOOLCHAIN_FILE=/vcpkg/scripts/buildsystems/vcpkg.cmake";
          "-DVCPKG_CHAINLOAD_TOOLCHAIN_FILE=/repo/build/../build/cmake/toolchain-linux-x64-gnu.cmake"]),
       (generate failing_host failing_runner
          (prepared failing_host failing_runner (Sample.start ∅))).2))
    by (vm_compute; reflexivity).
  destruct (failed_generate_stops_run failing_host failing_runner
              (Sample.start ∅) "all" "/vcpkg" _ _ _
              eq_refl eq_refl eq_refl
              (prepare_run failing_host failing_runner (Sample.start ∅)) Hgen)
    as (Hrun & Hcwd & _).
  eexists. split; [exact Hrun|]. rewrite Hcwd. vm_compute. reflexivity.
Defined.



(** ** The test phase *)

(** X14: the exit status of the test executable is ignored.  On a host
    that passes the Windows test the executable is [docs_tests.exe], on a
    host that passes the Linux test (and not the Windows one) it is
    [docs_tests], in the directory [test] under the build path joined to the
    temporary directory; whatever status it exits with, [tests] returns
    normally after starting it once, and so does a run that consists of the
    test phase. *)
Theorem tests_ignore_exit_status h self s exe code :
  (is_running_on_windows h = true
   /\ exe = os_path_join h
              (join3 h (gettempdir h) (build_path h self) "test")
              "docs_tests.exe")
  \/ (is_running_on_windows h = false /\ is_running_on_linux h = true
      /\ exe = os_path_join h
                 (join3 h (gettempdir h) (build_path h self) "test")
                 "docs_tests") ->
  child_exit h [exe] = Some code ->
  tests h self s = (Return tt, logs [Call m_tests; Spawn [exe] false] s)
  /\ (cmake_target self = None -> run_tests self = true ->
      run h self s = (Return tt, logs [Call m_tests; Spawn [exe] false] s)).
Proof.
  intros Hhost Hexit.
  assert (Hexe : test_exe h self = Some exe).
  { unfold test_exe.
    destruct Hhost as [(-> & ->) | (-> & -> & ->)]; reflexivity. }
  assert (Htests : forall s0, tests h self s0
            = (Return tt, logs [Call m_tests; Spawn [exe] false] s0)).
  { intros s0. rewrite tests_run, Hexe, Hexit. reflexivity. }
  split; [apply Htests|].
  intros Hnone Hrt.
  assert (Hgroup : build_group h self s = (Return tt, s)).
  { unfold build_group. rewrite Hnone. reflexivity. }
  rewrite (run_after_build_group _ _ _ _ Hgroup), Hrt. apply Htests.
Qed.

Lemma tests_ignore_exit_status_witness :
  tests failing_host failing_runner (Sample.start ∅)
  = (Return tt,
     logs [Call m_tests;
           Spawn ["/tmp/build_do_proxywrapper/linux-x64-gnu-debug/test/docs_tests"]
             false]
       (Sample.start ∅)).
Proof.
  refine (proj1 (tests_ignore_exit_status failing_host failing_runner
                   (Sample.start ∅)
                   "/tmp/build_do_proxywrapper/linux-x64-gnu-debug/test/docs_tests"
                   3 _ eq_refl)).
  right. split; [reflexivity|]. split; vm_compute; reflexivity.
Defined.

(** ** The options of the generate command *)

(** The options the classes add to those of the base class, given the
    dependency-manager root. *)
Definition toolchain_options (h : Host) (self : BuildRunner) (root : string)
    : list string :=
  let vcpkg_file :=
    os_path_abspath h (join4 h root "scripts" "buildsystems" "vcpkg.cmake") in
  match class self with
  | WindowsBuildRunner =>
      ["-DCMAKE_TOOLCHAIN_FILE=" +:+ vcpkg_file;
       "-DVCPKG_TARGET_TRIPLET=" +:+ arch self +:+ "-" +:+ platform self]
  | LinuxBuildRunner | OsxBuildRunner =>
      ["-DCMAKE_TOOLCHAIN_FILE=" +:+ vcpkg_file;
       "-DVCPKG_CHAINLOAD_TOOLCHAIN_FILE=" +:+
         get_cmake_toolchain_file_path h (platform self) (arch self)
           (compiler self) (project_root_path self)]
      ++ (if Py.startswith (arch self) "arm" then
            match get_env_var h "ZLIB_ROOT_DIR" with
            | Some zlib_dir => ["-DZLIB_ROOT=" +:+ zlib_dir]
            | None => []
            end
          else [])
  end.

Lemma generate_options_run h self root s :
  vcpkg_root_path self = Some root ->
  generate_options h self s =
  (Return (base_generate_options self ++ toolchain_options h self root), s).
Proof.
  intros Hroot.
  unfold generate_options, unix_generate_options, toolchain_options,
    get_vcpkg_toolchain_file_path, _vcpkg_triplet.
  rewrite Hroot. mred.
  destruct (class self); mred; try reflexivity;
    (destruct (Py.startswith (arch self) "arm");
     [destruct (get_env_var h "ZLIB_ROOT_DIR")|]);
    mred; rewrite <- ?app_assoc, ?app_nil_r; reflexivity.
Qed.

(** Refutes a membership [H] in a list of options that differ from the one
    looked for within their literal heads. *)
Ltac refute_in H :=
  cbn [In app] in H;
  repeat (destruct H as [H|H];
          [cbv [String.append] in H; try discriminate H|]);
  try contradiction.

(** Finds an option in a list of options. *)
Ltac find_in :=
  cbn [In app]; repeat first [left; reflexivity | right].

(** X15: the build type and the service switch among the generate
    options.  For a runner with a dependency-manager root, the options
    [generate_options] returns contain [-DCMAKE_BUILD_TYPE=Debug] exactly
    when the build mode, lower-cased, is [debug], and
    [-DCMAKE_BUILD_TYPE=Release] exactly when it is anything else; they
    contain [-DDO_BUILD_AS_SERVICE=ON] exactly when [--as-service] is
    given. *)
Theorem generate_options_build_type h self root s opts s' :
  vcpkg_root_path self = Some root ->
  generate_options h self s = (Return opts, s') ->
  (In "-DCMAKE_BUILD_TYPE=Debug" opts <-> Py.lower (config self) = "debug")
  /\ (In "-DCMAKE_BUILD_TYPE=Release" opts
      <-> Py.lower (config self) <> "debug")
  /\ (In "-DDO_BUILD_AS_SERVICE=ON" opts <-> as_service self = true).
Proof.
  intros Hroot. rewrite (generate_options_run h self root s Hroot).
  intros [= <- _].
  unfold base_generate_options, toolchain_options, generator.
  destruct (Py.eqb (Py.lower (config self)) "debug") eqn:Hmode;
    (apply String.eqb_eq in Hmode || apply String.eqb_neq in Hmode);
    (destruct (class self); [destruct (Py.eqb (arch self) "x64")|..]);
    destruct (as_service self);
    try (destruct (Py.startswith (arch self) "arm");
         [destruct (get_env_var h "ZLIB_ROOT_DIR")|]);
    (split; [|split]); split; intros H;
    try congruence; try reflexivity;
    first [solve [find_in] | solve [exfalso; refute_in H]].
Qed.

(** The runner a Linux host builds for [--config release --vcpkgdir
    /vcpkg --arch arm]. *)
Definition release_runner (env : gmap string string) : BuildRunner :=
  unix_runner (Sample.host "linux" env 1 0) LinuxBuildRunner
    (Sample.with_config "release"
       (Sample.with_arch "arm"
          (Sample.with_vcpkgdir "/vcpkg" Sample.no_args))).

Lemma generate_options_build_type_witness :
  In "-DCMAKE_BUILD_TYPE=Release"
     (base_generate_options (release_runner ∅)
      ++ toolchain_options (Sample.host "linux" ∅ 1 0) (release_runner ∅)
           "/vcpkg").
Proof.
  refine (proj2 (proj1 (proj2 (generate_options_build_type
            (Sample.host "linux" ∅ 1 0) (release_runner ∅)
            "/vcpkg" (Sample.start ∅) _ (Sample.start ∅) eq_refl
            (generate_options_run (Sample.host "linux" ∅ 1 0)
               (release_runner ∅) "/vcpkg" (Sample.start ∅) eq_refl)))) _).
  vm_compute. discriminate.
Defined.



(** ** Running a command *)

(** X17: [run_command] returns normally exactly when the child starts and
    exits with status 0.  A non-zero status raises [CalledProcessError]
    with that status and the command, after the line announcing the command,
    the start of the child and the line saying it failed; a child that
    cannot be started raises [OSError] after the announcing line alone, the
    handler not being entered. *)
Theorem run_command_returns_iff_success h cmd s :
  ((run_command h cmd s).1 = Return tt <-> child_exit h cmd = Some 0)
  /\ (forall code,
        child_exit h cmd = Some code -> code <> 0 ->
        run_command h cmd s =
          (Raise (CalledProcessError code cmd),
           logs [running cmd; Spawn cmd false; rethrowing cmd] s))
  /\ (child_exit h cmd = None ->
      run_command h cmd s = (Raise (OSError cmd), logs [running cmd] s)).
Proof.
  rewrite run_command_run.
  destruct (child_exit h cmd) as [code|].
  - destruct (Z.eqb_spec code 0) as [-> | Hne].
    + split; [split; reflexivity|]. split; [|discriminate].
      intros code' [= <-] Hne. contradiction Hne. reflexivity.
    + split; [split; [discriminate | congruence]|]. split; [|discriminate].
      intros code' [= <-] _. reflexivity.
  - split; [split; discriminate|]. split; [discriminate | reflexivity].
Qed.

(** ** Operation generate *)



Lemma run_command_returns_iff_success_witness :
  run_command failing_host ["cmake"; "--version"] (Sample.start ∅)
  = (Raise (CalledProcessError 3 ["cmake"; "--version"]),
     logs [running ["cmake"; "--version"];
           Spawn ["cmake"; "--version"] false;
           rethrowing ["cmake"; "--version"]]
       (Sample.start ∅)).
Proof.
  refine (proj1 (proj2 (run_command_returns_iff_success failing_host
                          ["cmake"; "--version"] (Sample.start ∅)))
            3 eq_refl _).
  discriminate.
Defined.
